(** * Binary logistic regression (logreg.py): model and properties

    A shallow embedding of the class [LogisticRegression] of
    [src/logreg/logreg.py].

    Numbers.  Python floats and NumPy float64 arrays are embedded twice.
    In the main development they are the real numbers [R] of the Standard
    Library and lists of them, with exact arithmetic; [numpy.exp],
    [numpy.log] and [math.sqrt] are [exp], [ln] and [sqrt].  Rounding,
    underflow, overflow and NaN are outside that model, and what depends
    on them is stated in the module [Binary64], where the same methods are
    written over the binary64 numbers of the kernel ([PrimFloat]), with
    the operations NumPy leaves to the platform ([numpy.exp], [numpy.log],
    [numpy.sum], [dot]) as parameters.  Python's float division raises
    [ZeroDivisionError] on a zero divisor; this is written out in
    [py_div].

    Effects.  Exceptions are the [Raise] results of [result]; loops that
    Python writes with [while] take a fuel argument and answer
    [OutOfFuel] when it is exhausted, so that termination is a theorem
    about the fuel and not an assumption.  The attributes of the object
    ([self.__a], [self.__b], [self.__th]) are the record [Model], passed
    in and returned explicitly. *)

From Stdlib Require Import Floats.
From Stdlib Require Uint63.
From Stdlib Require Import String Ascii DecimalString DecimalNat.
From Stdlib Require Import Reals List ZArith Lia Lra Bool Arith.
Import ListNotations.

Open Scope R_scope.
Set Warnings "-inexact-float".

(** ** Exceptions and results *)

Inductive exn : Type :=
| LogRegError (msg : string)   (* raise LogRegError(msg) *)
| ValueError                   (* int() or float() on a malformed literal *)
| ZeroDivisionError            (* float division by zero *)
| TypeError                    (* arithmetic or comparison with None *)
| IndexError                   (* subscript out of range *)
| IOError.                     (* open() on a missing file *)

Inductive result (A : Type) : Type :=
| Ok (x : A)
| Raise (e : exn)
| OutOfFuel.

Arguments Ok {A} x.
Arguments Raise {A} e.
Arguments OutOfFuel {A}.

Definition bind {A B : Type} (m : result A) (k : A -> result B) : result B :=
  match m with
  | Ok x => k x
  | Raise e => Raise e
  | OutOfFuel => OutOfFuel
  end.

Notation "x <- m ;; k" := (bind m (fun x => k))
  (at level 61, m at next level, right associativity).

Definition msg_not_specified : string := "Parameters have not been specified!"%string.
Definition msg_cannot_load : string := "Parameters cannot be loaded from a file!"%string.
Definition msg_input_wrong : string := "Input data are wrong!"%string.
Definition msg_train_data_wrong : string := "Train data are wrong!"%string.
Definition msg_train_params_wrong : string := "Train parameters are wrong!"%string.

(** ** Arrays *)

(** What a caller can pass where an array is expected.  Only the facts
    the code inspects are kept: whether the value is [None], whether it
    is an array at all, its [ndim] and its [shape]. *)
Inductive pyvalue : Type :=
| PyNone
| NdArray1 (v : list R)                          (* ndim = 1, shape = (len v,) *)
| NdArray2 (ncols : nat) (rows : list (list R))  (* ndim = 2, shape = (len rows, ncols) *)
| NdArrayOther                                   (* an array with ndim not in {1, 2} *)
| PyOther.                                       (* neither ndarray nor spmatrix *)

(** A two-dimensional array is well formed when every row has [ncols] entries. *)
Definition wf_matrix (ncols : nat) (rows : list (list R)) : Prop :=
  Forall (fun r => length r = ncols) rows.

Fixpoint dot (x w : list R) : R :=
  match x, w with
  | xi :: x', wi :: w' => xi * wi + dot x' w'
  | _, _ => 0
  end.

(** [X.dot(b)] for a matrix [X] and a vector [b]. *)
Definition mat_vec (rows : list (list R)) (w : list R) : list R :=
  map (fun x => dot x w) rows.

(** Column [j] of [X]. *)
Definition column (rows : list (list R)) (j : nat) : list R :=
  map (fun x => nth j x 0) rows.

(** [X.transpose().dot(v)]. *)
Definition transpose_vec (ncols : nat) (rows : list (list R)) (v : list R) : list R :=
  map (fun j => dot (column rows j) v) (seq 0 ncols).

Definition numpy_sum (v : list R) : R := fold_right Rplus 0 v.

Fixpoint zip_with {A B C : Type} (f : A -> B -> C) (u : list A) (v : list B) : list C :=
  match u, v with
  | x :: u', y :: v' => f x y :: zip_with f u' v'
  | _, _ => []
  end.

(** [b + lr * db] on arrays. *)
Definition axpy (lr : R) (w dw : list R) : list R :=
  zip_with (fun wi di => wi + lr * di) w dw.

Definition sigmoid_of (z : R) : R := 1 / (1 + exp z).

(** [1.0 / (1.0 + numpy.exp(-X.dot(b) - a))], elementwise. *)
Definition probabilities (rows : list (list R)) (a : R) (w : list R) : list R :=
  map (fun z => sigmoid_of (- z - a)) (mat_vec rows w).

(** Python's [x / y] on floats. *)
Definition py_div (x y : R) : result R :=
  if Req_dec_T y 0 then Raise ZeroDivisionError else Ok (x / y).

(** ** The object's attributes *)

Record Model : Type := mkModel {
  __a : option R;          (* free term *)
  __b : option (list R);   (* coefficients *)
  __th : option R          (* probability threshold *)
}.

(** [__init__] *)
Definition __init__ : Model := mkModel None None None.

(** ** Log-likelihood and its gradient *)

Definition __calculate_log_likelihood
    (rows : list (list R)) (y : list R) (a : R) (w : list R) : R :=
  let eps := 0.000001 in
  let p := probabilities rows a w in
  numpy_sum (zip_with (fun yi pi => yi * ln (pi + eps) + (1 - yi) * ln (1 - pi + eps)) y p).

(** [self.__a] and [self.__b] are read by the source; [fit] calls the
    method after assigning both, and they are passed here as [a] and [w]. *)
Definition __calculate_gradient
    (ncols : nat) (rows : list (list R)) (y : list R) (a : R) (w : list R) : R * list R :=
  let p := probabilities rows a w in
  let r := zip_with Rminus y p in
  let da := numpy_sum r in
  let db := transpose_vec ncols rows r in
  (da, db).

(** ** Golden-section search for the learning rate *)

Definition theta : R := (1 + sqrt 5) / 2.

(** The [while abs(lr_min - lr_max) >= eps] loop of [__find_best_lr];
    [L lr] is the log-likelihood at the point moved by [lr] along the
    gradient.  The loop's exit state is the final bracket. *)
Fixpoint golden_loop (fuel : nat) (L : R -> R) (eps lr_min lr_max lr1 lr2 : R)
  : result (R * R) :=
  if Rge_dec (Rabs (lr_min - lr_max)) eps then
    match fuel with
    | O => OutOfFuel
    | S fuel' =>
        let y1 := L lr1 in
        let y2 := L lr2 in
        if Rle_dec y1 y2 then
          let lr_min' := lr1 in
          let lr1' := lr2 in
          let lr2' := lr_min' + (lr_max - lr_min') / theta in
          golden_loop fuel' L eps lr_min' lr_max lr1' lr2'
        else
          let lr_max' := lr2 in
          let lr2' := lr1 in
          let lr1' := lr_max' - (lr_max' - lr_min) / theta in
          golden_loop fuel' L eps lr_min lr_max' lr1' lr2'
    end
  else Ok (lr_min, lr_max).

(** The objective of the line search. *)
Definition line_objective
    (rows : list (list R)) (y : list R) (a : R) (w : list R) (gradient : R * list R)
    (lr : R) : R :=
  __calculate_log_likelihood rows y (a + lr * fst gradient) (axpy lr w (snd gradient)).

(** The bracket on which [__find_best_lr] leaves its loop. *)
Definition final_bracket (fuel : nat)
    (rows : list (list R)) (y : list R) (a : R) (w : list R) (gradient : R * list R)
    (lr_max : R) : result (R * R) :=
  let lr_min := 0 in
  let eps := 0.00001 * (lr_max - lr_min) in
  let lr1 := lr_max - (lr_max - lr_min) / theta in
  let lr2 := lr_min + (lr_max - lr_min) / theta in
  golden_loop fuel (line_objective rows y a w gradient) eps lr_min lr_max lr1 lr2.

Definition __find_best_lr (fuel : nat)
    (rows : list (list R)) (y : list R) (a : R) (w : list R) (gradient : R * list R)
    (lr_max : R) : result R :=
  br <- final_bracket fuel rows y a w gradient lr_max ;;
  Ok ((snd br - fst br) / 2).

(** The midpoint of a bracket, which is what a golden-section search reports. *)
Definition midpoint (br : R * R) : R := (fst br + snd br) / 2.

(** ** Threshold calibration *)

(** The dictionary [{'tp': _, 'tn': _, 'fp': _, 'fn': _}]: its four keys
    are fixed, so it is a record of counters. *)
Record Quality : Type := mkQuality { tp : nat; tn : nat; fp : nat; fn : nat }.

Definition count_one (quality : Quality) (target real : R) : Quality :=
  if Rgt_dec target 0 then
    if Rgt_dec real 0
    then mkQuality (S (tp quality)) (tn quality) (fp quality) (fn quality)
    else mkQuality (tp quality) (tn quality) (fp quality) (S (fn quality))
  else
    if Rgt_dec real 0
    then mkQuality (tp quality) (tn quality) (S (fp quality)) (fn quality)
    else mkQuality (tp quality) (S (tn quality)) (fp quality) (fn quality).

(** The [for ind in range(n)] loop, [n = y_target.shape[0]]; subscripting
    [y_real] past its end raises. *)
Fixpoint calc_quality_loop (quality : Quality) (y_target y_real : list R)
  : result Quality :=
  match y_target with
  | [] => Ok quality
  | t :: y_target' =>
      match y_real with
      | [] => Raise IndexError
      | r :: y_real' => calc_quality_loop (count_one quality t r) y_target' y_real'
      end
  end.

Definition __calc_quality (y_target y_real : list R) : result Quality :=
  calc_quality_loop (mkQuality 0 0 0 0) y_target y_real.

(** [(y_real >= th).astype(numpy.float)] *)
Definition ge_mask (y_real : list R) (th : R) : list R :=
  map (fun p => if Rge_dec p th then 1 else 0) y_real.

(** [map(lambda a: float(a) / 100.0, range(101))] *)
Definition candidates : list R := map (fun a => INR a / 100) (seq 0 101).

(** The distance to the corner (0, 1) of the ROC plane that the body of
    the loop of [__calc_best_th] computes for one candidate. *)
Definition roc_dist (y_target y_real : list R) (th : R) : result R :=
  quality <- __calc_quality y_target (ge_mask y_real th) ;;
  tpr <- py_div (INR (tp quality)) (INR (tp quality + fn quality)) ;;
  fpr <- py_div (INR (fp quality)) (INR (tn quality + fp quality)) ;;
  Ok (sqrt ((0 - fpr) * (0 - fpr) + (1 - tpr) * (1 - tpr))).

Fixpoint best_th_loop (ths : list R) (y_target y_real : list R) (best_th min_dist : R)
  : result R :=
  match ths with
  | [] => Ok best_th
  | th :: ths' =>
      dist <- roc_dist y_target y_real th ;;
      if Rlt_dec dist min_dist
      then best_th_loop ths' y_target y_real th dist
      else best_th_loop ths' y_target y_real best_th min_dist
  end.

Definition __calc_best_th (y_target y_real : list R) : result R :=
  best_th_loop candidates y_target y_real 0 1.

(** ** Inference *)

Definition transform (self : Model) (X : pyvalue) : result (list R) :=
  match __a self, __b self with
  | Some a, Some w =>
      match X with
      | NdArray2 ncols rows =>
          if Nat.eqb ncols (length w)
          then Ok (probabilities rows a w)
          else Raise (LogRegError msg_input_wrong)
      | _ => Raise (LogRegError msg_input_wrong)
      end
  | _, _ => Raise (LogRegError msg_not_specified)
  end.

(** [(self.transform(X) >= self.__th).astype(numpy.float)]: the call of
    [transform] is evaluated first; comparing a float of the array with
    [None] is a [TypeError], which an array without elements never
    meets. *)
Definition predict (self : Model) (X : pyvalue) : result (list R) :=
  p <- transform self X ;;
  match __th self with
  | Some th => Ok (ge_mask p th)
  | None => match p with
            | [] => Ok []
            | _ :: _ => Raise TypeError
            end
  end.

(** ** Training *)

(** What [fit] prints. *)
Inductive line : Type :=
| Progress (iteration : Z) (f : R)
| StoppedSmallChange
| StoppedMaxIters.

(** The [while not stop] loop of [fit].  [stop] is false on entry, so the
    body runs at least once; the loop ends by returning.  [fuel] bounds
    the turns of this loop and [lr_fuel] those of each line search. *)
Fixpoint fit_loop (fuel : nat) (lr_fuel : nat)
    (ncols : nat) (rows : list (list R)) (y : list R) (eps lr_max : R) (max_iters : Z)
    (a : R) (w : list R) (f_old : R) (iterations_number : Z) (out : list line)
  : result (R * list R * Z * list line) :=
  match fuel with
  | O => OutOfFuel
  | S fuel' =>
      let gradient := __calculate_gradient ncols rows y a w in
      lr <- __find_best_lr lr_fuel rows y a w gradient lr_max ;;
      let a' := a + lr * fst gradient in
      let w' := axpy lr w (snd gradient) in
      let f_new := __calculate_log_likelihood rows y a' w' in
      let out' := (out ++ [Progress iterations_number f_new])%list in
      if Rlt_dec (f_new - f_old) eps then
        Ok (a', w', iterations_number, out')
      else
        let iterations_number' := (iterations_number + 1)%Z in
        if (iterations_number' >=? max_iters)%Z then
          Ok (a', w', iterations_number', out')
        else
          fit_loop fuel' lr_fuel ncols rows y eps lr_max max_iters
                   a' w' f_new iterations_number' out'
  end.

(** [numpy.random.rand] draws from a generator; the draws are the stream
    [rand]: [rand(1)[0]] is its first element and [rand(n)] the next [n]. *)
Definition random_init (rand : nat -> R) (ncols : nat) : R * list R :=
  (rand O - 0.5, map (fun i => rand (S i) - 0.5) (seq 0 ncols)).

(** [fit] answers its result, the object afterwards (also when it
    raised) and what it printed.  The data and the parameters are checked
    before any attribute is assigned; [self.__a] and [self.__b] are then
    assigned at once and after every update, which the loop carries as
    [a] and [w]; [self.__th] is assigned last, when the calibration has
    returned. *)
Definition fit (fuel : nat) (rand : nat -> R) (self : Model)
    (X y : pyvalue) (eps lr_max : R) (max_iters : Z)
  : result unit * Model * list line :=
  match X, y with
  | NdArray2 ncols rows, NdArray1 yv =>
      if negb (Nat.eqb (length rows) (length yv)) then
        (Raise (LogRegError msg_train_data_wrong), self, [])
      else if Rle_dec eps 0 then
        (Raise (LogRegError msg_train_params_wrong), self, [])
      else if Rle_dec lr_max 0 then
        (Raise (LogRegError msg_train_params_wrong), self, [])
      else if (max_iters <? 1)%Z then
        (Raise (LogRegError msg_train_params_wrong), self, [])
      else
        let '(a0, w0) := random_init rand ncols in
        let f_old := __calculate_log_likelihood rows yv a0 w0 in
        let out0 := [Progress 0 f_old] in
        match fit_loop fuel fuel ncols rows yv eps lr_max max_iters a0 w0 f_old 1 out0 with
        | OutOfFuel => (OutOfFuel, mkModel (Some a0) (Some w0) (__th self), out0)
        | Raise e => (Raise e, mkModel (Some a0) (Some w0) (__th self), out0)
        | Ok (a, w, iterations_number, out) =>
            let out' :=
              (out ++ [if (iterations_number <? max_iters)%Z
                       then StoppedSmallChange else StoppedMaxIters])%list in
            let self' := mkModel (Some a) (Some w) (__th self) in
            match bind (transform self' X) (__calc_best_th yv) with
            | Ok th => (Ok tt, mkModel (Some a) (Some w) (Some th), out')
            | Raise e => (Raise e, self', out')
            | OutOfFuel => (OutOfFuel, self', out')
            end
        end
  | _, _ => (Raise (LogRegError msg_train_data_wrong), self, [])
  end.

(** ** Text *)

Module Text.

Open Scope string_scope.

Definition newline : ascii := "010"%char.

(** [str.isspace] on the ASCII characters: tab, line feed, vertical tab,
    form feed, carriage return, the four separators 28-31 and space. *)
Definition isspace (c : ascii) : bool :=
  let n := nat_of_ascii c in
  ((9 <=? n) && (n <=? 13) || (28 <=? n) && (n <=? 32))%nat.

Fixpoint lstrip (s : string) : string :=
  match s with
  | EmptyString => EmptyString
  | String c s' => if isspace c then lstrip s' else s
  end.

Fixpoint rstrip (s : string) : string :=
  match s with
  | EmptyString => EmptyString
  | String c s' =>
      match rstrip s' with
      | EmptyString => if isspace c then EmptyString else String c EmptyString
      | r => String c r
      end
  end.

(** [s.strip()] *)
Definition strip (s : string) : string := rstrip (lstrip s).

(** [s.split()]: the maximal runs of characters that are not white space;
    [cur] is the run being read. *)
Fixpoint split_from (cur : string) (s : string) : list string :=
  match s with
  | EmptyString => match cur with EmptyString => [] | _ => [cur] end
  | String c s' =>
      if isspace c then
        match cur with
        | EmptyString => split_from EmptyString s'
        | _ => cur :: split_from EmptyString s'
        end
      else split_from (cur ++ String c EmptyString) s'
  end.

Definition split (s : string) : list string := split_from EmptyString s.

Definition lower_char (c : ascii) : ascii :=
  let n := nat_of_ascii c in
  if ((65 <=? n) && (n <=? 90))%nat then ascii_of_nat (n + 32) else c.

(** [s.lower()] *)
Fixpoint lower (s : string) : string :=
  match s with
  | EmptyString => EmptyString
  | String c s' => String (lower_char c) (lower s')
  end.

(** The successive results of [fp.readline()] up to the end of the file:
    each line keeps its line feed, the last one may lack it. *)
Fixpoint readlines (s : string) : list string :=
  match s with
  | EmptyString => []
  | String c s' =>
      if Ascii.eqb c newline then String c EmptyString :: readlines s'
      else match readlines s' with
           | [] => [String c EmptyString]
           | l :: ls => String c l :: ls
           end
  end.

(** The text whose lines are [ls], each closed by a line feed. *)
Definition unlines (ls : list string) : string :=
  String.concat "" (map (fun l => l ++ String newline "") ls).

(** ['{0}'.format(n)] for a natural number. *)
Definition str_of_nat (n : nat) : string := NilEmpty.string_of_uint (Nat.to_uint n).

(** A decimal literal with an optional minus sign, as [int] reads it. *)
Definition int_of_decimal (s : string) : option Z :=
  match s with
  | EmptyString => None
  | String "-" s' =>
      match s' with
      | EmptyString => None
      | _ => option_map (fun d => (- Z.of_nat (Nat.of_uint d))%Z) (NilEmpty.uint_of_string s')
      end
  | _ => option_map (fun d => Z.of_nat (Nat.of_uint d)) (NilEmpty.uint_of_string s)
  end.

(** A decimal literal [digits], [digits.digits], [.digits] or [digits.],
    with an optional minus sign: the plain forms among those [float]
    reads. *)
Fixpoint before_dot (s : string) : string :=
  match s with
  | EmptyString => EmptyString
  | String c s' => if Ascii.eqb c "." then EmptyString else String c (before_dot s')
  end.

Fixpoint after_dot (s : string) : string :=
  match s with
  | EmptyString => EmptyString
  | String c s' => if Ascii.eqb c "." then s' else after_dot s'
  end.

Definition unsigned_of_decimal (s : string) : option R :=
  let ip := before_dot s in
  let fp := after_dot s in
  match ip, fp with
  | EmptyString, EmptyString => None
  | _, _ =>
      match NilEmpty.uint_of_string ip, NilEmpty.uint_of_string fp with
      | Some i, Some f =>
          Some (IZR (Z.of_nat (Nat.of_uint i))
                + IZR (Z.of_nat (Nat.of_uint f)) / IZR (10 ^ Z.of_nat (String.length fp)))
      | _, _ => None
      end
  end.

Definition float_of_decimal (s : string) : option R :=
  match s with
  | String "-" s' => option_map Ropp (unsigned_of_decimal s')
  | _ => unsigned_of_decimal s
  end.

(** Characters that are not white space throughout, and at least one. *)
Fixpoint no_space (s : string) : bool :=
  match s with
  | EmptyString => true
  | String c s' => negb (isspace c) && no_space s'
  end.

Definition token (s : string) : Prop := s <> EmptyString /\ no_space s = true.

Fixpoint no_newline (s : string) : bool :=
  match s with
  | EmptyString => true
  | String c s' => negb (Ascii.eqb c newline) && no_newline s'
  end.

End Text.

(** ** Persistence *)

(** The files: a path is bound to its contents or to nothing. *)
Definition filesystem : Type := string -> option string.

Definition write_file (fs : filesystem) (file_name contents : string) : filesystem :=
  fun p => if String.eqb p file_name then Some contents else fs p.

(** [l[i] = v] on a list. *)
Fixpoint list_set (l : list R) (i : nat) (v : R) : result (list R) :=
  match l, i with
  | [], _ => Raise IndexError
  | _ :: l', O => Ok (v :: l')
  | x :: l', S i' => l'' <- list_set l' i' v ;; Ok (x :: l'')
  end.

Section Persistence.

(** The conversions between numbers and text come from Python and NumPy:
    [int_of_str] is [int], [float_of_str] is [float] (both answer [None]
    where Python raises [ValueError]) and [str_of_float] is
    ['{0}'.format] on a float. *)
Variable int_of_str : string -> option Z.
Variable float_of_str : string -> option R.
Variable str_of_float : R -> string.

(** The text [save] writes for defined attributes. *)
Definition serialize (a : R) (w : list R) (th : R) : string :=
  (("Input size " ++ Text.str_of_nat (length w) ++ String Text.newline (String Text.newline ""))
   ++ String.concat "" (map (fun wi => str_of_float wi ++ String Text.newline "") w)
   ++ (String Text.newline "" ++ str_of_float a ++ String Text.newline (String Text.newline "")
       ++ str_of_float th ++ String Text.newline ""))%string.

(** [open(file_name, 'w')] is taken to succeed. *)
Definition save (self : Model) (file_name : string) (fs : filesystem)
  : result unit * filesystem :=
  match __a self, __b self, __th self with
  | Some a, Some w, Some th => (Ok tt, write_file fs file_name (serialize a w th))
  | _, _, _ => (Raise (LogRegError msg_not_specified), fs)
  end.

(** One turn of the [while len(cur_line) > 0] loop of [load] per line read;
    the empty list is the end of the file, where the count of parameters
    read is checked.  Each of the three branches of a data line starts by
    [float(prepared_line)], which is written once here, ahead of them. *)
Fixpoint load_loop (lines : list string) (input_size ind : Z) (self : Model)
  : result unit * Model :=
  match lines with
  | [] =>
      if (ind <=? input_size + 1)%Z
      then (Raise (LogRegError msg_cannot_load), self)
      else (Ok tt, self)
  | cur_line :: lines' =>
      let prepared_line := Text.strip cur_line in
      if (0 <? String.length prepared_line)%nat then
        if (input_size <=? 0)%Z then
          match Text.split prepared_line with
          | [p0; p1; p2] =>
              if negb (String.eqb (Text.lower p0) "input")
                 || negb (String.eqb (Text.lower p1) "size")
              then (Raise (LogRegError msg_cannot_load), self)
              else
                match int_of_str p2 with
                | None => (Raise ValueError, self)
                | Some input_size' =>
                    if (input_size' <=? 0)%Z
                    then (Raise (LogRegError msg_cannot_load), self)
                    else
                      load_loop lines' input_size' ind
                        (mkModel (Some 0.0) (Some (repeat 0 (Z.to_nat input_size'))) (Some 0.5))
                end
          | _ => (Raise (LogRegError msg_cannot_load), self)
          end
        else
          if (ind >? input_size + 1)%Z
          then (Raise (LogRegError msg_cannot_load), self)
          else
            match float_of_str prepared_line with
            | None => (Raise ValueError, self)
            | Some v =>
                if (ind <? input_size)%Z then
                  match __b self with
                  | None => (Raise TypeError, self)
                  | Some w =>
                      match list_set w (Z.to_nat ind) v with
                      | Ok w' =>
                          load_loop lines' input_size (ind + 1)%Z
                            (mkModel (__a self) (Some w') (__th self))
                      | Raise e => (Raise e, self)
                      | OutOfFuel => (OutOfFuel, self)
                      end
                  end
                else if (ind =? input_size)%Z then
                  load_loop lines' input_size (ind + 1)%Z
                    (mkModel (Some v) (__b self) (__th self))
                else
                  let self' := mkModel (__a self) (__b self) (Some v) in
                  if Rlt_dec v 0 then (Raise (LogRegError msg_cannot_load), self')
                  else if Rgt_dec v 1 then (Raise (LogRegError msg_cannot_load), self')
                  else load_loop lines' input_size (ind + 1)%Z self'
            end
      else load_loop lines' input_size ind self
  end.

Definition load (self : Model) (file_name : string) (fs : filesystem)
  : result unit * Model :=
  match fs file_name with
  | None => (Raise IOError, self)
  | Some contents => load_loop (Text.readlines contents) (-1) 0 self
  end.

End Persistence.

(** ** Binary64 arithmetic *)

Module Binary64.

Local Open Scope float_scope.

(** [float(n)] for a count [n] (below [2 ^ 63]). *)
Definition float_of_nat (n : nat) : float := of_uint63 (Uint63.of_Z (Z.of_nat n)).

(** Python's [x / y] on floats. *)
Definition py_div (x y : float) : result float :=
  if (y =? 0) then Raise ZeroDivisionError else Ok (x / y).

(** [math.sqrt], which refuses a negative argument. *)
Definition math_sqrt (x : float) : result float :=
  if (x <? 0) then Raise ValueError else Ok (PrimFloat.sqrt x).

Definition count_one (quality : Quality) (target real : float) : Quality :=
  if (0 <? target) then
    if (0 <? real)
    then mkQuality (S (tp quality)) (tn quality) (fp quality) (fn quality)
    else mkQuality (tp quality) (tn quality) (fp quality) (S (fn quality))
  else
    if (0 <? real)
    then mkQuality (tp quality) (tn quality) (S (fp quality)) (fn quality)
    else mkQuality (tp quality) (S (tn quality)) (fp quality) (fn quality).

Fixpoint calc_quality_loop (quality : Quality) (y_target y_real : list float)
  : result Quality :=
  match y_target with
  | [] => Ok quality
  | t :: y_target' =>
      match y_real with
      | [] => Raise IndexError
      | r :: y_real' => calc_quality_loop (count_one quality t r) y_target' y_real'
      end
  end.

Definition __calc_quality (y_target y_real : list float) : result Quality :=
  calc_quality_loop (mkQuality 0 0 0 0) y_target y_real.

(** [(y_real >= th).astype(numpy.float)] *)
Definition ge_mask (y_real : list float) (th : float) : list float :=
  map (fun p => if (th <=? p) then 1 else 0) y_real.

(** [float(a) / 100.0] *)
Definition candidate (a : nat) : float := float_of_nat a / 100.

(** [map(lambda a: float(a) / 100.0, range(101))] *)
Definition candidates : list float := map candidate (seq 0 101).

Definition roc_dist (y_target y_real : list float) (th : float) : result float :=
  quality <- __calc_quality y_target (ge_mask y_real th) ;;
  tpr <- py_div (float_of_nat (tp quality)) (float_of_nat (tp quality + fn quality)) ;;
  fpr <- py_div (float_of_nat (fp quality)) (float_of_nat (tn quality + fp quality)) ;;
  math_sqrt ((0 - fpr) * (0 - fpr) + (1 - tpr) * (1 - tpr)).

Fixpoint best_th_loop (ths : list float) (y_target y_real : list float)
    (best_th min_dist : float) : result float :=
  match ths with
  | [] => Ok best_th
  | th :: ths' =>
      dist <- roc_dist y_target y_real th ;;
      if (dist <? min_dist)
      then best_th_loop ths' y_target y_real th dist
      else best_th_loop ths' y_target y_real best_th min_dist
  end.

Definition __calc_best_th (y_target y_real : list float) : result float :=
  best_th_loop candidates y_target y_real 0 1.

(** [1.0 / (1.0 + numpy.exp(-X.dot(b) - a))], elementwise; [scores] is
    the array [X.dot(b)] and [np_exp] is [numpy.exp]. *)
Definition probabilities (np_exp : float -> float) (scores : list float) (a : float)
  : list float :=
  map (fun z => 1 / (1 + np_exp (- z - a))) scores.

Definition theta : float := (1 + PrimFloat.sqrt 5) / 2.

Fixpoint golden_loop (fuel : nat) (L : float -> float) (eps lr_min lr_max lr1 lr2 : float)
  : result (float * float) :=
  if (eps <=? abs (lr_min - lr_max)) then
    match fuel with
    | O => OutOfFuel
    | S fuel' =>
        let y1 := L lr1 in
        let y2 := L lr2 in
        if (y1 <=? y2) then
          let lr_min' := lr1 in
          let lr1' := lr2 in
          let lr2' := lr_min' + (lr_max - lr_min') / theta in
          golden_loop fuel' L eps lr_min' lr_max lr1' lr2'
        else
          let lr_max' := lr2 in
          let lr2' := lr1 in
          let lr1' := lr_max' - (lr_max' - lr_min) / theta in
          golden_loop fuel' L eps lr_min lr_max' lr1' lr2'
    end
  else Ok (lr_min, lr_max).

(** [L lr] is [self.__calculate_log_likelihood(X, y, self.__a + lr *
    gradient[0], self.__b + lr * gradient[1])]. *)
Definition __find_best_lr (fuel : nat) (L : float -> float) (lr_max : float)
  : result float :=
  let lr_min := 0 in
  let eps := 0.00001 * (lr_max - lr_min) in
  let lr1 := lr_max - (lr_max - lr_min) / theta in
  let lr2 := lr_min + (lr_max - lr_min) / theta in
  br <- golden_loop fuel L eps lr_min lr_max lr1 lr2 ;;
  Ok ((snd br - fst br) / 2).

(** What a caller can pass where an array is expected. *)
Inductive pyvalue : Type :=
| PyNone
| NdArray1 (v : list float)
| NdArray2 (ncols : nat) (rows : list (list float))
| NdArrayOther
| PyOther.

Record Model : Type := mkModel {
  __a : option float;
  __b : option (list float);
  __th : option float
}.

Inductive line : Type :=
| Progress (iteration : Z) (f : float)
| StoppedSmallChange
| StoppedMaxIters.

(** [b + lr * db] on arrays. *)
Definition axpy (lr : float) (w dw : list float) : list float :=
  zip_with (fun wi di => wi + lr * di) w dw.

Section NumPy.

(** What NumPy computes with the platform's libraries, whose rounding the
    source does not fix: [X.dot(b)], [X.transpose().dot(v)], [numpy.sum],
    [numpy.exp] and [numpy.log]. *)
Variable np_dot : list (list float) -> list float -> list float.
Variable np_tdot : list (list float) -> list float -> list float.
Variable np_sum : list float -> float.
Variable np_exp : float -> float.
Variable np_log : float -> float.

Definition __calculate_log_likelihood
    (rows : list (list float)) (y : list float) (a : float) (w : list float) : float :=
  let eps := 0.000001 in
  let p := probabilities np_exp (np_dot rows w) a in
  np_sum (zip_with (fun yi pi => yi * np_log (pi + eps) + (1 - yi) * np_log (1 - pi + eps))
                   y p).

Definition __calculate_gradient
    (rows : list (list float)) (y : list float) (a : float) (w : list float)
  : float * list float :=
  let p := probabilities np_exp (np_dot rows w) a in
  let r := zip_with PrimFloat.sub y p in
  let da := np_sum r in
  let db := np_tdot rows r in
  (da, db).

Definition transform (self : Model) (X : pyvalue) : result (list float) :=
  match __a self, __b self with
  | Some a, Some w =>
      match X with
      | NdArray2 ncols rows =>
          if Nat.eqb ncols (length w)
          then Ok (probabilities np_exp (np_dot rows w) a)
          else Raise (LogRegError msg_input_wrong)
      | _ => Raise (LogRegError msg_input_wrong)
      end
  | _, _ => Raise (LogRegError msg_not_specified)
  end.

Fixpoint fit_loop (fuel : nat) (lr_fuel : nat)
    (rows : list (list float)) (y : list float) (eps lr_max : float) (max_iters : Z)
    (a : float) (w : list float) (f_old : float) (iterations_number : Z) (out : list line)
  : result (float * list float * Z * list line) :=
  match fuel with
  | O => OutOfFuel
  | S fuel' =>
      let gradient := __calculate_gradient rows y a w in
      lr <- __find_best_lr lr_fuel
              (fun lr => __calculate_log_likelihood rows y
                           (a + lr * fst gradient) (axpy lr w (snd gradient)))
              lr_max ;;
      let a' := a + lr * fst gradient in
      let w' := axpy lr w (snd gradient) in
      let f_new := __calculate_log_likelihood rows y a' w' in
      let out' := (out ++ [Progress iterations_number f_new])%list in
      if (f_new - f_old <? eps) then
        Ok (a', w', iterations_number, out')
      else
        let iterations_number' := (iterations_number + 1)%Z in
        if (iterations_number' >=? max_iters)%Z then
          Ok (a', w', iterations_number', out')
        else
          fit_loop fuel' lr_fuel rows y eps lr_max max_iters
                   a' w' f_new iterations_number' out'
  end.

Definition random_init (rand : nat -> float) (ncols : nat) : float * list float :=
  (rand O - 0.5, map (fun i => rand (S i) - 0.5) (seq 0 ncols)).

Definition fit (fuel : nat) (rand : nat -> float) (self : Model)
    (X y : pyvalue) (eps lr_max : float) (max_iters : Z)
  : result unit * Model * list line :=
  match X, y with
  | NdArray2 ncols rows, NdArray1 yv =>
      if negb (Nat.eqb (length rows) (length yv)) then
        (Raise (LogRegError msg_train_data_wrong), self, [])
      else if (eps <=? 0) then
        (Raise (LogRegError msg_train_params_wrong), self, [])
      else if (lr_max <=? 0) then
        (Raise (LogRegError msg_train_params_wrong), self, [])
      else if (max_iters <? 1)%Z then
        (Raise (LogRegError msg_train_params_wrong), self, [])
      else
        let '(a0, w0) := random_init rand ncols in
        let f_old := __calculate_log_likelihood rows yv a0 w0 in
        let out0 := [Progress 0 f_old] in
        match fit_loop fuel fuel rows yv eps lr_max max_iters a0 w0 f_old 1 out0 with
        | OutOfFuel => (OutOfFuel, mkModel (Some a0) (Some w0) (__th self), out0)
        | Raise e => (Raise e, mkModel (Some a0) (Some w0) (__th self), out0)
        | Ok (a, w, iterations_number, out) =>
            let out' :=
              (out ++ [if (iterations_number <? max_iters)%Z
                       then StoppedSmallChange else StoppedMaxIters])%list in
            let self' := mkModel (Some a) (Some w) (__th self) in
            match bind (transform self' X) (__calc_best_th yv) with
            | Ok th => (Ok tt, mkModel (Some a) (Some w) (Some th), out')
            | Raise e => (Raise e, self', out')
            | OutOfFuel => (OutOfFuel, self', out')
            end
        end
  | _, _ => (Raise (LogRegError msg_train_data_wrong), self, [])
  end.

End NumPy.

End Binary64.

(** * Vocabulary of the properties *)

(** ** Runs of the training loop *)

(** The progress lines printed for the objective values [fs], numbered from [it]. *)
Fixpoint progress_from (it : Z) (fs : list R) : list line :=
  match fs with
  | [] => []
  | f :: fs' => Progress it f :: progress_from (it + 1)%Z fs'
  end.

(** The stopping rule read off a run: [fs] are the objective values after
    each update of a loop entered with objective [f_old] and counter [it].
    Every update but the last gained at least [eps] and left the counter
    under [max_iters]; the last one gained less than [eps] or brought the
    counter to [max_iters]. *)
Fixpoint stops_at_first (eps : R) (max_iters : Z) (f_old : R) (it : Z) (fs : list R) : Prop :=
  match fs with
  | [] => False
  | f_new :: fs' =>
      match fs' with
      | [] => f_new - f_old < eps \/ (max_iters <= it + 1)%Z
      | _ :: _ =>
          ~ f_new - f_old < eps /\ (it + 1 < max_iters)%Z /\
          stops_at_first eps max_iters f_new (it + 1)%Z fs'
      end
  end.

Definition stop_line (iterations_number max_iters : Z) : line :=
  if (iterations_number <? max_iters)%Z then StoppedSmallChange else StoppedMaxIters.

(** Consecutive Fibonacci numbers [(F n, F (n - 1))]. *)
Fixpoint fib_pair (n : nat) : Z * Z :=
  match n with
  | O => (0, 1)%Z
  | S n' => let '(f, g) := fib_pair n' in ((f + g)%Z, f)
  end.

(** ** Confusion counts *)

(** The specification's reading of the calibration, stated on the labels
    [y] and the probabilities [p] without the loop: a sample is positive
    when its label is, and predicted positive at [th] when its
    probability reaches [th]. *)
Definition is_positive (t : R) : bool := if Rgt_dec t 0 then true else false.
Definition reaches (th q : R) : bool := if Rge_dec q th then true else false.

Definition count_where (f : R -> R -> bool) (y p : list R) : nat :=
  length (filter (fun tq => f (fst tq) (snd tq)) (combine y p)).

Definition TP (th : R) := count_where (fun t q => is_positive t && reaches th q).
Definition FN (th : R) := count_where (fun t q => is_positive t && negb (reaches th q)).
Definition FP (th : R) := count_where (fun t q => negb (is_positive t) && reaches th q).
Definition TN (th : R) := count_where (fun t q => negb (is_positive t) && negb (reaches th q)).

Definition TPR (th : R) (y p : list R) : R := INR (TP th y p) / INR (TP th y p + FN th y p).
Definition FPR (th : R) (y p : list R) : R := INR (FP th y p) / INR (FP th y p + TN th y p).

(** [sqrt(FPR^2 + (1 - TPR)^2)] *)
Definition spec_dist (y p : list R) (th : R) : R :=
  sqrt ((FPR th y p) ^ 2 + (1 - TPR th y p) ^ 2).

Definition positives (y : list R) : nat := length (filter is_positive y).
Definition negatives (y : list R) : nat := length (filter (fun t => negb (is_positive t)) y).

Definition add_quality (q r : Quality) : Quality :=
  mkQuality (tp q + tp r) (tn q + tn r) (fp q + fp r) (fn q + fn r).

Definition confusion (th : R) (y p : list R) : Quality :=
  mkQuality (TP th y p) (TN th y p) (FP th y p) (FN th y p).

(** The attributes are all undefined or all defined. *)
Definition all_or_none (self : Model) : Prop :=
  (__a self = None /\ __b self = None /\ __th self = None) \/
  (__a self <> None /\ __b self <> None /\ __th self <> None).

(** ** Saved files *)

Definition blank_line : string := String Text.newline "".

Definition header (d : nat) : string := ("Input size " ++ Text.str_of_nat d)%string.

Definition nonblank (l : string) : bool :=
  negb (String.eqb (Text.strip l) EmptyString).

(** The lines of a file that [load] parses, stripped. *)
Definition data_lines (ls : list string) : list string :=
  map Text.strip (filter nonblank ls).

Section PersistenceVocabulary.

Variable int_of_str : string -> option Z.
Variable float_of_str : string -> option R.
Variable str_of_float : R -> string.

(** The text of a number is one token that reads back as the number. *)
Definition round_trips (x : R) : Prop :=
  Text.token (str_of_float x) /\ float_of_str (str_of_float x) = Some x.

Definition number_line (x : R) : string :=
  (str_of_float x ++ String Text.newline "")%string.

(** The lines of a saved file. *)
Definition saved_lines (a : R) (w : list R) (th : R) : list string :=
  ((header (length w) ++ String Text.newline "")%string :: blank_line
     :: map number_line w
     ++ [blank_line; number_line a; blank_line; number_line th])%list.

(** A data line that [float] reads. *)
Definition is_number (s : string) : Prop := float_of_str s <> None.

(** The header line [Input size d] of a file. *)
Definition declares (l : string) (d : nat) : Prop :=
  exists p0 p1 p2,
    Text.strip l <> EmptyString /\
    Text.split (Text.strip l) = [p0; p1; p2] /\
    Text.lower p0 = "input"%string /\ Text.lower p1 = "size"%string /\
    int_of_str p2 = Some (Z.of_nat d) /\ (0 < d)%nat.

End PersistenceVocabulary.

(** ** Further vocabulary *)

(** [LogRegError.__str__]; [msg] is the attribute [self.msg], [None] when
    the exception was built without a message. *)
Definition __str__ (msg : option string) : string :=
  let error_msg := "Logistic regression algorithm is incorrect!"%string in
  match msg with
  | Some m => (error_msg ++ (" " ++ m))%string
  | None => error_msg
  end.

(** Labels of both classes: one positive and one that is not. *)
Definition both_classes (y : list R) : Prop :=
  Exists (fun t => t > 0) y /\ Exists (fun t => ~ t > 0) y.



(** A model with all attributes defined, [d] coefficients and a threshold
    in [0, 1]. *)
Definition usable (self : Model) (d : nat) : Prop :=
  exists a w th,
    self = mkModel (Some a) (Some w) (Some th) /\ length w = d /\ 0 <= th <= 1.


(** ** Exact distances and the size of a score *)




(** * Properties *)

(** ** Results *)

Lemma bind_Ok {A B : Type} (m : result A) (k : A -> result B) (x : A) :
  m = Ok x -> bind m k = k x.
Proof. intros ->. reflexivity. Qed.

Lemma bind_Ok_inv {A B : Type} (m : result A) (k : A -> result B) (z : B) :
  bind m k = Ok z -> exists x, m = Ok x /\ k x = Ok z.
Proof. destruct m as [x| |]; simpl; intros H; try discriminate. now exists x. Qed.

Lemma Ok_inj {A : Type} (x z : A) : Ok x = Ok z -> x = z.
Proof. intros H. now injection H. Qed.

(** ** The golden ratio *)

Lemma sqrt5_bounds : 11 / 5 < sqrt 5 < 3.
Proof.
  split.
  - replace (11 / 5) with (sqrt (121 / 25))
      by (replace (121 / 25) with (11 / 5 * (11 / 5)) by field; apply sqrt_square; lra).
    apply sqrt_lt_1; lra.
  - replace 3 with (sqrt 9) by (replace 9 with (3 * 3) by ring; apply sqrt_square; lra).
    apply sqrt_lt_1; lra.
Qed.

Lemma theta_bounds : 8 / 5 < theta < 2.
Proof. unfold theta. pose proof sqrt5_bounds. lra. Qed.

Lemma theta_pos : 0 < theta.
Proof. pose proof theta_bounds. lra. Qed.

Lemma theta_square : theta * theta = theta + 1.
Proof.
  unfold theta.
  assert (H : sqrt 5 * sqrt 5 = 5) by (apply sqrt_sqrt; lra).
  field_simplify. rewrite <- Rsqr_pow2. unfold Rsqr. rewrite H. field.
Qed.

(** What remains of a bracket of width [w] when the golden section is cut
    off twice is [w] less the first cut. *)
Lemma golden_cut (w : R) : w / theta / theta = w - w / theta.
Proof.
  pose proof theta_pos. pose proof theta_square as Hs.
  apply Rmult_eq_reg_r with (theta * theta); [|nra].
  replace (w / theta / theta * (theta * theta)) with w by (field; lra).
  replace ((w - w / theta) * (theta * theta)) with (w * (theta * theta) - w * theta)
    by (field; lra).
  rewrite Hs. ring.
Qed.

Lemma theta_pow_fib (n : nat) :
  theta ^ n = IZR (fst (fib_pair n)) * theta + IZR (snd (fib_pair n)).
Proof.
  induction n as [|n IH].
  - simpl. lra.
  - simpl pow. rewrite IH. simpl fib_pair.
    destruct (fib_pair n) as [f g]. simpl fst. simpl snd.
    rewrite plus_IZR.
    replace (theta * (IZR f * theta + IZR g))
      with (IZR f * (theta * theta) + IZR g * theta) by ring.
    rewrite theta_square. ring.
Qed.

Lemma theta_pow_23 : theta ^ 23 <= 100000.
Proof.
  rewrite theta_pow_fib.
  replace (fib_pair 23) with (28657, 17711)%Z by reflexivity.
  simpl fst. simpl snd. pose proof theta_bounds. lra.
Qed.

Lemma theta_pow_24 : 100000 < theta ^ 24.
Proof.
  rewrite theta_pow_fib.
  replace (fib_pair 24) with (46368, 28657)%Z by reflexivity.
  simpl fst. simpl snd. pose proof theta_bounds. lra.
Qed.

Lemma theta_pow_pos (n : nat) : 0 < theta ^ n.
Proof. apply pow_lt, theta_pos. Qed.

Lemma theta_pow_le_23 (j : nat) : (j < 24)%nat -> theta ^ j <= 100000.
Proof.
  intros Hj. apply Rle_trans with (theta ^ 23); [|apply theta_pow_23].
  apply Rle_pow; [pose proof theta_bounds; lra | lia].
Qed.

Lemma div_pow_succ (w : R) (j : nat) : w / theta / theta ^ j = w / theta ^ S j.
Proof. pose proof theta_pos. pose proof (theta_pow_pos j). simpl. field. lra. Qed.

(** ** The loop of the golden-section search *)

(** A bracket whose inner points are the two golden cuts is left by the
    loop after exactly [n] turns, [n] being the first power of [theta]
    that brings the width under the tolerance; the width has then been
    divided by [theta ^ n], whatever the objective. *)
Lemma golden_loop_width (L : R -> R) (eps : R) (n : nat) :
  forall (fuel : nat) (lo hi lr1 lr2 : R),
    (n <= fuel)%nat ->
    lo < hi ->
    lr1 = hi - (hi - lo) / theta ->
    lr2 = lo + (hi - lo) / theta ->
    (forall j, (j < n)%nat -> eps <= (hi - lo) / theta ^ j) ->
    (hi - lo) / theta ^ n < eps ->
    exists lo' hi',
      golden_loop fuel L eps lo hi lr1 lr2 = Ok (lo', hi') /\
      hi' - lo' = (hi - lo) / theta ^ n /\
      lo <= lo' /\ hi' <= hi /\
      (L lr1 <= L lr2 -> (0 < n)%nat -> lr1 <= lo').
Proof.
  pose proof theta_bounds as Ht.
  induction n as [|n IH]; intros fuel lo hi lr1 lr2 Hfuel Hlt E1 E2 Hge Hend.
  - exists lo, hi. simpl in Hend. replace ((hi - lo) / 1) with (hi - lo) in Hend by field.
    destruct fuel; simpl;
      (destruct (Rge_dec (Rabs (lo - hi)) eps) as [Hc|Hc];
       [ rewrite Rabs_left in Hc by lra; lra
       | repeat split; try lra; try (simpl; field); intros _ Hn; lia ]).
  - destruct fuel as [|fuel]; [lia|].
    assert (Hw : eps <= hi - lo).
    { specialize (Hge O ltac:(lia)). simpl in Hge. lra. }
    assert (Hcut : 0 < (hi - lo) / theta < hi - lo).
    { split.
      - apply Rdiv_lt_0_compat; lra.
      - apply Rmult_lt_reg_r with theta; [lra|].
        replace ((hi - lo) / theta * theta) with (hi - lo) by (field; lra). nra. }
    pose proof (golden_cut (hi - lo)) as Hg.
    simpl golden_loop.
    destruct (Rge_dec (Rabs (lo - hi)) eps) as [Hc|Hc];
      [| rewrite Rabs_left in Hc by lra; lra].
    destruct (Rle_dec (L lr1) (L lr2)) as [Hy|Hy].
    + destruct (IH fuel lr1 hi lr2 (lr1 + (hi - lr1) / theta)) as (lo' & hi' & Hr & Hwd & Hlo & Hhi & _).
      * lia.
      * lra.
      * subst lr1 lr2. replace (hi - (hi - (hi - lo) / theta)) with ((hi - lo) / theta) by ring.
        rewrite Hg. ring.
      * reflexivity.
      * intros j Hj. replace (hi - lr1) with ((hi - lo) / theta) by (subst lr1; ring).
        rewrite div_pow_succ. apply Hge. lia.
      * replace (hi - lr1) with ((hi - lo) / theta) by (subst lr1; ring).
        rewrite div_pow_succ. exact Hend.
      * exists lo', hi'. rewrite Hr. repeat split; try lra.
        rewrite Hwd. replace (hi - lr1) with ((hi - lo) / theta) by (subst lr1; ring).
        apply div_pow_succ.
    + destruct (IH fuel lo lr2 (lr2 - (lr2 - lo) / theta) lr1) as (lo' & hi' & Hr & Hwd & Hlo & Hhi & _).
      * lia.
      * lra.
      * reflexivity.
      * subst lr1 lr2. replace (lo + (hi - lo) / theta - lo) with ((hi - lo) / theta) by ring.
        rewrite Hg. ring.
      * intros j Hj. replace (lr2 - lo) with ((hi - lo) / theta) by (subst lr2; ring).
        rewrite div_pow_succ. apply Hge. lia.
      * replace (lr2 - lo) with ((hi - lo) / theta) by (subst lr2; ring).
        rewrite div_pow_succ. exact Hend.
      * exists lo', hi'. rewrite Hr. repeat split; try lra.
        rewrite Hwd. replace (lr2 - lo) with ((hi - lo) / theta) by (subst lr2; ring).
        apply div_pow_succ.
Qed.

Section FindBestLr.

Variables (rows : list (list R)) (y : list R) (a : R) (w : list R) (gradient : R * list R).

(** For a positive [lr_max] the search leaves its loop after 24 turns, on
    a bracket inside [0, lr_max] whose width is [lr_max / theta ^ 24]. *)
Lemma final_bracket_spec (fuel : nat) (lr_max : R) :
  0 < lr_max -> (24 <= fuel)%nat ->
  exists lo hi,
    final_bracket fuel rows y a w gradient lr_max = Ok (lo, hi) /\
    hi - lo = lr_max / theta ^ 24 /\
    0 <= lo /\ hi <= lr_max /\
    (line_objective rows y a w gradient (lr_max - (lr_max - 0) / theta)
       <= line_objective rows y a w gradient (0 + (lr_max - 0) / theta) ->
     lr_max - (lr_max - 0) / theta <= lo).
Proof.
  intros Hpos Hfuel. unfold final_bracket.
  destruct (golden_loop_width (line_objective rows y a w gradient)
              (0.00001 * (lr_max - 0)) 24 fuel 0 lr_max
              (lr_max - (lr_max - 0) / theta) (0 + (lr_max - 0) / theta))
    as (lo & hi & Hr & Hw & Hlo & Hhi & Hfirst); try reflexivity; try lra; try lia.
  - intros j Hj. pose proof (theta_pow_le_23 j Hj) as Hp. pose proof (theta_pow_pos j) as Hq.
    apply Rmult_le_reg_r with (theta ^ j); [exact Hq|].
    replace ((lr_max - 0) / theta ^ j * theta ^ j) with lr_max by (field; lra).
    nra.
  - pose proof theta_pow_24 as Hp. pose proof (theta_pow_pos 24) as Hq.
    remember (theta ^ 24) as t eqn:Et. clear Et.
    apply Rmult_lt_reg_r with t; [exact Hq|].
    replace ((lr_max - 0) / t * t) with lr_max by (field; lra).
    nra.
  - exists lo, hi. rewrite Hr. split; [reflexivity|]. split; [|split; [|split]]; try lra.
    intros Hy. apply Hfirst; [exact Hy | lia].
Qed.

(** The value [__find_best_lr] returns is fixed by [lr_max] alone: half the
    width of the final bracket, [lr_max / theta ^ 24 / 2]. *)
Lemma find_best_lr_value (fuel : nat) (lr_max : R) :
  0 < lr_max -> (24 <= fuel)%nat ->
  __find_best_lr fuel rows y a w gradient lr_max = Ok (lr_max / theta ^ 24 / 2).
Proof.
  intros Hpos Hfuel. unfold __find_best_lr.
  destruct (final_bracket_spec fuel lr_max Hpos Hfuel) as (lo & hi & Hr & Hw & _).
  rewrite Hr. simpl. rewrite Hw. reflexivity.
Qed.

(** The returned rate is positive and under [lr_max / 200000]. *)
Lemma find_best_lr_range (fuel : nat) (lr_max : R) :
  0 < lr_max -> (24 <= fuel)%nat ->
  exists lr, __find_best_lr fuel rows y a w gradient lr_max = Ok lr /\
             0 < lr < lr_max / 200000.
Proof.
  intros Hpos Hfuel. exists (lr_max / theta ^ 24 / 2).
  split; [apply find_best_lr_value; assumption|].
  pose proof theta_pow_24 as Hp. pose proof (theta_pow_pos 24) as Hq.
  remember (theta ^ 24) as t eqn:Et. clear Et.
  assert (H1 : 0 < lr_max / t) by (apply Rdiv_lt_0_compat; lra).
  assert (H2 : lr_max / t < lr_max / 100000).
  { apply Rmult_lt_reg_r with t; [exact Hq|].
    replace (lr_max / t * t) with lr_max by (field; lra). nra. }
  lra.
Qed.

(** The value returned is the midpoint of the final bracket only when the
    bracket still starts at 0. *)
Lemma find_best_lr_midpoint_iff (fuel : nat) (lr_max : R) :
  0 < lr_max -> (24 <= fuel)%nat ->
  exists lo hi,
    final_bracket fuel rows y a w gradient lr_max = Ok (lo, hi) /\
    __find_best_lr fuel rows y a w gradient lr_max = Ok ((hi - lo) / 2) /\
    ((hi - lo) / 2 = midpoint (lo, hi) <-> lo = 0).
Proof.
  intros Hpos Hfuel.
  destruct (final_bracket_spec fuel lr_max Hpos Hfuel) as (lo & hi & Hr & _).
  exists lo, hi. split; [exact Hr|]. split.
  - unfold __find_best_lr. rewrite Hr. reflexivity.
  - unfold midpoint. cbn [fst snd]. split; intros H; lra.
Qed.

End FindBestLr.

(** ** The training loop *)

Lemma progress_from_app (it : Z) (fs gs : list R) :
  progress_from it (fs ++ gs) = (progress_from it fs ++ progress_from (it + Z.of_nat (length fs)) gs)%list.
Proof.
  revert it. induction fs as [|f fs IH]; intros it; simpl.
  - now rewrite Z.add_0_r.
  - rewrite IH. do 3 f_equal. lia.
Qed.

Lemma fit_loop_terminates
    (ncols : nat) (rows : list (list R)) (y : list R) (eps lr_max : R) (max_iters : Z)
    (lr_fuel : nat) :
  0 < lr_max -> (24 <= lr_fuel)%nat ->
  forall (fuel : nat) (a : R) (w : list R) (f_old : R) (it : Z) (out : list line),
    (1 <= fuel)%nat -> (max_iters - it <= Z.of_nat fuel)%Z ->
    exists a' w' it' fs,
      fit_loop fuel lr_fuel ncols rows y eps lr_max max_iters a w f_old it out
        = Ok (a', w', it', (out ++ progress_from it fs)%list) /\
      stops_at_first eps max_iters f_old it fs /\
      (Z.of_nat (length fs) <= Z.max 1 (max_iters - it))%Z /\
      (it' < max_iters <-> it + Z.of_nat (length fs) <= max_iters
                           /\ it' = it + Z.of_nat (length fs) - 1)%Z.
Proof.
  intros Hlr Hlf fuel.
  induction fuel as [|fuel IH]; intros a w f_old it out Hfuel Hbound; [lia|].
  cbn [fit_loop]. cbv zeta.
  rewrite (find_best_lr_value rows y a w _ lr_fuel lr_max Hlr Hlf).
  unfold bind at 1.
  set (lr := lr_max / theta ^ 24 / 2).
  set (g := __calculate_gradient ncols rows y a w).
  set (a1 := a + lr * fst g). set (w1 := axpy lr w (snd g)).
  set (f_new := __calculate_log_likelihood rows y a1 w1).
  destruct (Rlt_dec (f_new - f_old) eps) as [Hc|Hc].
  - exists a1, w1, it, [f_new].
    cbn [progress_from stops_at_first length].
    repeat split; try lia; auto.
  - destruct (it + 1 >=? max_iters)%Z eqn:Hm.
    + exists a1, w1, (it + 1)%Z, [f_new].
      cbn [progress_from stops_at_first length].
      apply Z.geb_le in Hm. repeat split; try lia; auto.
    + rewrite Z.geb_leb in Hm. apply Z.leb_gt in Hm.
      destruct (IH a1 w1 f_new (it + 1)%Z (out ++ [Progress it f_new])%list)
        as (a' & w' & it' & fs & Hr & Hs & Hn & Hit); [lia | lia |].
      exists a', w', it', (f_new :: fs). rewrite Hr.
      split; [now rewrite <- app_assoc|].
      split.
      { cbn [stops_at_first]. destruct fs as [|f fs]; [destruct Hs|]. repeat split; auto. }
      cbn [length]. rewrite Nat2Z.inj_succ. split; [lia|].
      split; intros H.
      * apply Hit in H. lia.
      * apply Hit. lia.
Qed.

(** ** Counting the confusion matrix *)

Lemma count_where_cons (f : R -> R -> bool) (t q : R) (y p : list R) :
  count_where f (t :: y) (q :: p) = ((if f t q then 1 else 0) + count_where f y p)%nat.
Proof. unfold count_where. simpl. destruct (f t q); reflexivity. Qed.

Lemma calc_quality_loop_counts (th : R) (y : list R) :
  forall (p : list R) (q : Quality),
    length p = length y ->
    calc_quality_loop q y (ge_mask p th) = Ok (add_quality q (confusion th y p)).
Proof.
  induction y as [|t y IH]; intros p q Hlen.
  - destruct p; [|discriminate]. simpl. destruct q; unfold add_quality; simpl.
    now rewrite !Nat.add_0_r.
  - destruct p as [|r p]; [discriminate|]. injection Hlen as Hlen.
    simpl. rewrite IH by exact Hlen. f_equal.
    unfold confusion, add_quality, TP, TN, FP, FN. rewrite !count_where_cons.
    unfold count_one, is_positive, reaches.
    destruct (Rgt_dec t 0), (Rge_dec r th); simpl;
      repeat match goal with
             | |- context [Rgt_dec ?x 0] => destruct (Rgt_dec x 0); try lra
             end; simpl; f_equal; lia.
Qed.

Lemma calc_quality_counts (th : R) (y p : list R) :
  length p = length y ->
  __calc_quality y (ge_mask p th) = Ok (confusion th y p).
Proof.
  intros Hlen. unfold __calc_quality. rewrite calc_quality_loop_counts by exact Hlen.
  reflexivity.
Qed.

(** The two denominators do not depend on the threshold. *)
Lemma positives_split (th : R) (y : list R) :
  forall p, length p = length y -> (TP th y p + FN th y p = positives y)%nat.
Proof.
  induction y as [|t y IH]; intros p Hlen.
  - destruct p; reflexivity.
  - destruct p as [|r p]; [discriminate|]. injection Hlen as Hlen.
    unfold TP, FN in *. rewrite !count_where_cons. specialize (IH p Hlen).
    unfold positives in *. simpl. destruct (is_positive t), (reaches th r); simpl; lia.
Qed.

Lemma negatives_split (th : R) (y : list R) :
  forall p, length p = length y -> (FP th y p + TN th y p = negatives y)%nat.
Proof.
  induction y as [|t y IH]; intros p Hlen.
  - destruct p; reflexivity.
  - destruct p as [|r p]; [discriminate|]. injection Hlen as Hlen.
    unfold FP, TN in *. rewrite !count_where_cons. specialize (IH p Hlen).
    unfold negatives in *. simpl. destruct (is_positive t), (reaches th r); simpl; lia.
Qed.

Lemma positives_Exists (y : list R) :
  Exists (fun t => t > 0) y <-> (0 < positives y)%nat.
Proof.
  unfold positives. induction y as [|t y IH]; simpl.
  - split; [intros H; inversion H | lia].
  - unfold is_positive at 1. destruct (Rgt_dec t 0) as [Ht|Ht]; simpl.
    + split; [lia | intros _; now left].
    + rewrite <- IH. split; intros H.
      * inversion H; [contradiction | assumption].
      * now right.
Qed.

Lemma negatives_Exists (y : list R) :
  Exists (fun t => ~ t > 0) y <-> (0 < negatives y)%nat.
Proof.
  unfold negatives. induction y as [|t y IH]; simpl.
  - split; [intros H; inversion H | lia].
  - unfold is_positive at 1. destruct (Rgt_dec t 0) as [Ht|Ht]; simpl.
    + rewrite <- IH. split; intros H.
      * inversion H; [contradiction | assumption].
      * now right.
    + split; [lia | intros _; now left].
Qed.

(** ** The distance computed for one candidate *)

Lemma py_div_nonzero (x y : R) : y <> 0 -> py_div x y = Ok (x / y).
Proof. intros H. unfold py_div. destruct (Req_dec_T y 0); [contradiction | reflexivity]. Qed.

Lemma py_div_zero (x : R) : py_div x 0 = Raise ZeroDivisionError.
Proof. unfold py_div. destruct (Req_dec_T 0 0); [reflexivity | contradiction]. Qed.

Lemma roc_dist_spec (y p : list R) (th : R) :
  length p = length y -> (0 < positives y)%nat -> (0 < negatives y)%nat ->
  roc_dist y p th = Ok (spec_dist y p th).
Proof.
  intros Hlen Hp Hn. unfold roc_dist.
  rewrite calc_quality_counts by exact Hlen. simpl.
  pose proof (positives_split th y p Hlen) as Ep.
  pose proof (negatives_split th y p Hlen) as En.
  rewrite py_div_nonzero by (rewrite Ep; apply not_0_INR; lia). simpl.
  rewrite py_div_nonzero
    by (rewrite (Nat.add_comm (TN th y p)), En; apply not_0_INR; lia).
  simpl. f_equal. unfold spec_dist, TPR, FPR.
  rewrite (Nat.add_comm (TN th y p)). f_equal. ring.
Qed.

(** With no positive label, or with no other label, the first division
    that meets the empty class raises. *)
Lemma roc_dist_degenerate (y p : list R) (th : R) :
  length p = length y -> (positives y = 0 \/ negatives y = 0)%nat ->
  roc_dist y p th = Raise ZeroDivisionError.
Proof.
  intros Hlen Hdeg. unfold roc_dist.
  rewrite calc_quality_counts by exact Hlen. simpl.
  pose proof (positives_split th y p Hlen) as Ep.
  pose proof (negatives_split th y p Hlen) as En.
  rewrite Ep.
  destruct (Nat.eq_dec (positives y) 0) as [Z|NZ].
  - rewrite Z. simpl INR. now rewrite py_div_zero.
  - rewrite py_div_nonzero by (apply not_0_INR; exact NZ). simpl.
    destruct Hdeg as [Z|Z]; [contradiction|].
    rewrite (Nat.add_comm (TN th y p)), En, Z. simpl INR. now rewrite py_div_zero.
Qed.

Lemma seq_0_101 : seq 0 101 = O :: seq 1 100.
Proof. reflexivity. Qed.

Lemma candidates_cons :
  candidates = INR 0 / 100 :: map (fun a => INR a / 100) (seq 1 100).
Proof. unfold candidates. rewrite seq_0_101. reflexivity. Qed.

Lemma best_th_loop_cons (th : R) (ths y p : list R) (best_th min_dist : R) :
  best_th_loop (th :: ths) y p best_th min_dist =
  bind (roc_dist y p th)
       (fun dist => if Rlt_dec dist min_dist
                    then best_th_loop ths y p th dist
                    else best_th_loop ths y p best_th min_dist).
Proof. reflexivity. Qed.

Lemma calc_best_th_degenerate (y p : list R) :
  length p = length y -> (positives y = 0 \/ negatives y = 0)%nat ->
  __calc_best_th y p = Raise ZeroDivisionError.
Proof.
  intros Hlen Hdeg. unfold __calc_best_th. rewrite candidates_cons.
  rewrite best_th_loop_cons.
  rewrite (roc_dist_degenerate y p (INR 0 / 100) Hlen Hdeg).
  unfold bind. reflexivity.
Qed.

(** ** The scan over the candidates *)

Section Scan.

Variables (y p : list R).
Hypothesis Hlen : length p = length y.
Hypothesis Hpos : (0 < positives y)%nat.
Hypothesis Hneg : (0 < negatives y)%nat.

Let d := spec_dist y p.

(** The loop answers the incumbent when no candidate beats it, and
    otherwise the first candidate of least distance. *)
Lemma best_th_loop_spec (ths : list R) :
  forall best_th min_dist,
  exists r,
    best_th_loop ths y p best_th min_dist = Ok r /\
    ((r = best_th /\ Forall (fun t => min_dist <= d t) ths) \/
     (exists pre post,
        ths = (pre ++ r :: post)%list /\ d r < min_dist /\
        Forall (fun t => d r < d t) pre /\ Forall (fun t => d r <= d t) post)).
Proof.
  induction ths as [|th ths IH]; intros best_th min_dist.
  - exists best_th. split; [reflexivity|]. left. split; [reflexivity | constructor].
  - rewrite best_th_loop_cons, (roc_dist_spec y p th Hlen Hpos Hneg). unfold bind.
    fold d. destruct (Rlt_dec (d th) min_dist) as [Hc|Hc].
    + destruct (IH th (d th)) as (r & Hr & [[-> Hall] | (pre & post & -> & Hlt & Hpre & Hpost)]).
      * exists th. split; [exact Hr|]. right. exists [], ths.
        split; [reflexivity|]. split; [exact Hc|]. split; [constructor | exact Hall].
      * exists r. split; [exact Hr|]. right. exists (th :: pre), post.
        split; [reflexivity|]. split; [lra|]. split; [|exact Hpost].
        constructor; [lra | exact Hpre].
    + destruct (IH best_th min_dist) as (r & Hr & [[-> Hall] | (pre & post & -> & Hlt & Hpre & Hpost)]).
      * exists best_th. split; [exact Hr|]. left. split; [reflexivity|].
        constructor; [lra | exact Hall].
      * exists r. split; [exact Hr|]. right. exists (th :: pre), post.
        split; [reflexivity|]. split; [lra|]. split; [|exact Hpost].
        constructor; [lra | exact Hpre].
Qed.

End Scan.

(** ** The candidate thresholds *)

Lemma candidates_length : length candidates = 101%nat.
Proof. unfold candidates. now rewrite length_map, length_seq. Qed.

Lemma candidates_nth (j : nat) : (j <= 100)%nat -> nth j candidates 0 = INR j / 100.
Proof.
  intros Hj. unfold candidates.
  rewrite (nth_indep _ 0 (INR 0 / 100)) by (rewrite length_map, length_seq; lia).
  pose proof (map_nth (fun a => INR a / 100) (seq 0 101) O j) as H.
  cbv beta in H. rewrite H, seq_nth by lia. reflexivity.
Qed.

Lemma candidate_zero : INR 0 / 100 = 0.
Proof. simpl. lra. Qed.

Lemma count_where_none (f : R -> R -> bool) (y : list R) :
  forall p, (forall t q, In q p -> f t q = false) -> count_where f y p = O.
Proof.
  induction y as [|t y IH]; intros p Hf.
  - reflexivity.
  - destruct p as [|q p]; [reflexivity|].
    rewrite count_where_cons, Hf by (now left). rewrite IH; [reflexivity|].
    intros t' q' Hin. apply Hf. now right.
Qed.

(** At threshold 0 every sample is predicted positive, so both rates are 1. *)
Lemma spec_dist_zero (y p : list R) :
  length p = length y -> (0 < positives y)%nat -> (0 < negatives y)%nat ->
  Forall (fun q => 0 <= q <= 1) p ->
  spec_dist y p 0 = 1.
Proof.
  intros Hlen Hp Hn Hq.
  assert (Hreach : forall q, In q p -> reaches 0 q = true).
  { intros q Hin. rewrite Forall_forall in Hq. specialize (Hq q Hin).
    unfold reaches. destruct (Rge_dec q 0); [reflexivity | lra]. }
  assert (EFN : FN 0 y p = O).
  { apply count_where_none. intros t q Hin. rewrite (Hreach q Hin).
    simpl. apply andb_false_r. }
  assert (ETN : TN 0 y p = O).
  { apply count_where_none. intros t q Hin. rewrite (Hreach q Hin).
    simpl. apply andb_false_r. }
  pose proof (positives_split 0 y p Hlen) as Ep.
  pose proof (negatives_split 0 y p Hlen) as En.
  unfold spec_dist, TPR, FPR. rewrite EFN, ETN in *. rewrite !Nat.add_0_r in *.
  rewrite Ep, En.
  assert (H1 : INR (positives y) <> 0) by (apply not_0_INR; lia).
  assert (H2 : INR (negatives y) <> 0) by (apply not_0_INR; lia).
  replace (INR (negatives y) / INR (negatives y)) with 1 by (field; exact H2).
  replace (INR (positives y) / INR (positives y)) with 1 by (field; exact H1).
  replace (1 ^ 2 + (1 - 1) ^ 2) with 1 by ring. apply sqrt_1.
Qed.

(** ** Ordering binary64 numbers *)

Ltac order_cases :=
  repeat match goal with
  | H : context [PosDef.Pos.compare_cont Eq ?a ?b] |- _ =>
      change (PosDef.Pos.compare_cont Eq a b) with (Pos.compare a b) in H
  | |- context [PosDef.Pos.compare_cont Eq ?a ?b] =>
      change (PosDef.Pos.compare_cont Eq a b) with (Pos.compare a b)
  end;
  repeat match goal with
  | H : context [(?a ?= ?b)%Z] |- _ => destruct (Z.compare_spec a b); cbn [CompOpp] in *
  | H : context [Pos.compare ?a ?b] |- _ => destruct (Pos.compare_spec a b); cbn [CompOpp] in *
  | |- context [(?a ?= ?b)%Z] => destruct (Z.compare_spec a b); cbn [CompOpp] in *
  | |- context [Pos.compare ?a ?b] => destruct (Pos.compare_spec a b); cbn [CompOpp] in *
  end; try discriminate; try reflexivity; try lia.

Ltac float_cases :=
  repeat match goal with s : bool |- _ => destruct s end;
  try discriminate; try reflexivity.



Lemma SFltb_irrefl (a : spec_float) : SFltb a a = false.
Proof.
  unfold SFltb, SFcompare. destruct a as [sa|sa| |sa ma ea]; float_cases; order_cases.
Qed.




Lemma ltb_irrefl (a : float) : (a <? a)%float = false.
Proof. rewrite FloatAxioms.ltb_spec. apply SFltb_irrefl. Qed.



(** ** The scan over the candidates in binary64 *)

Section Scan64.

Variables y p : list float.


End Scan64.

(** ** The candidates in binary64 *)








(** ** The sigmoid *)

Lemma sigmoid_of_bounds (z : R) : 0 < sigmoid_of z < 1.
Proof.
  unfold sigmoid_of. pose proof (exp_pos z) as He.
  split.
  - apply Rdiv_lt_0_compat; lra.
  - apply Rmult_lt_reg_r with (1 + exp z); [lra|].
    replace (1 / (1 + exp z) * (1 + exp z)) with 1 by (field; lra). lra.
Qed.



(** ** A first step of the ascent *)

Lemma exp_le (x z : R) : x <= z -> exp x <= exp z.
Proof.
  intros [H| ->]; [left; now apply exp_increasing | right; reflexivity].
Qed.

Lemma sigmoid_of_decreasing (x z : R) : x <= z -> sigmoid_of z <= sigmoid_of x.
Proof.
  intros H. unfold sigmoid_of. pose proof (exp_pos x). pose proof (exp_le x z H).
  unfold Rdiv. rewrite !Rmult_1_l. apply Rinv_le_contravar; lra.
Qed.

Lemma ln_le_compat (x z : R) : 0 < x -> x <= z -> ln x <= ln z.
Proof.
  intros Hx [H| ->]; [left; now apply ln_increasing | right; reflexivity].
Qed.

(** The objective of the line search that [fit] runs first on the samples
    [1] (labelled 1) and [-1] (labelled 0) when the initial free term and
    coefficient are 0; the gradient there is [(0, [1])]. *)
Lemma first_step_objective (lr : R) :
  line_objective [[1]; [-1]] [1; 0] 0 [0] (0, [1]) lr
  = ln (sigmoid_of (- lr) + 0.000001) + ln (1 - sigmoid_of lr + 0.000001).
Proof.
  unfold line_objective, __calculate_log_likelihood, probabilities, mat_vec, axpy.
  cbn [fst snd zip_with map dot numpy_sum fold_right].
  replace (- (1 * (0 + lr * 1) + 0) - (0 + lr * 0)) with (- lr) by ring.
  replace (- (-1 * (0 + lr * 1) + 0) - (0 + lr * 0)) with lr by ring.
  ring.
Qed.

Lemma first_step_gradient :
  __calculate_gradient 1 [[1]; [-1]] [1; 0] 0 [0] = (0, [1]).
Proof.
  unfold __calculate_gradient, probabilities, mat_vec, transpose_vec, column.
  cbn [seq map zip_with dot numpy_sum fold_right nth].
  replace (- (1 * 0 + 0) - 0) with 0 by ring.
  replace (- (-1 * 0 + 0) - 0) with 0 by ring.
  unfold sigmoid_of. rewrite exp_0. f_equal; [|f_equal]; field.
Qed.

Lemma first_step_objective_increasing (x z : R) :
  x <= z ->
  line_objective [[1]; [-1]] [1; 0] 0 [0] (0, [1]) x
  <= line_objective [[1]; [-1]] [1; 0] 0 [0] (0, [1]) z.
Proof.
  intros H. rewrite !first_step_objective.
  pose proof (sigmoid_of_bounds (- x)). pose proof (sigmoid_of_bounds x).
  pose proof (sigmoid_of_decreasing (- z) (- x) ltac:(lra)).
  pose proof (sigmoid_of_decreasing x z H).
  apply Rplus_le_compat; apply ln_le_compat; lra.
Qed.

(** C1.  The line search of the first step of [fit] on the samples [1]
    (labelled 1) and [-1] (labelled 0), from free term and coefficient 0,
    with [lr_max = 1]: the loop ends on a bracket whose midpoint is above
    1/4, and the value returned is half the width of that bracket, under
    1/200000; it is not the midpoint. *)
Theorem find_best_lr_not_midpoint :
  exists br lr,
    final_bracket 24 [[1]; [-1]] [1; 0] 0 [0] (0, [1]) 1 = Ok br /\
    __find_best_lr 24 [[1]; [-1]] [1; 0] 0 [0] (0, [1]) 1 = Ok lr /\
    lr = (snd br - fst br) / 2 /\
    lr = 1 / theta ^ 24 / 2 /\
    lr < 1 / 200000 /\
    1 / 4 < midpoint br /\
    lr <> midpoint br.
Proof.
  destruct (final_bracket_spec [[1]; [-1]] [1; 0] 0 [0] (0, [1]) 24 1)
    as (lo & hi & Hr & Hw & Hlo & Hhi & Hfirst); [lra | lia |].
  destruct (find_best_lr_range [[1]; [-1]] [1; 0] 0 [0] (0, [1]) 24 1)
    as (lr & Hlr & Hpos & Hsmall); [lra | lia |].
  pose proof (find_best_lr_value [[1]; [-1]] [1; 0] 0 [0] (0, [1]) 24 1
                ltac:(lra) ltac:(lia)) as Hv.
  assert (Hcut : 1 / 2 < (1 - 0) / theta < 5 / 8).
  { pose proof theta_bounds as Ht. split.
    - apply Rmult_lt_reg_r with theta; [lra|].
      replace ((1 - 0) / theta * theta) with 1 by (field; lra). lra.
    - apply Rmult_lt_reg_r with theta; [lra|].
      replace ((1 - 0) / theta * theta) with 1 by (field; lra). lra. }
  assert (Hlo' : 1 - (1 - 0) / theta <= lo).
  { apply Hfirst. apply first_step_objective_increasing. lra. }
  exists (lo, hi), lr. cbn [fst snd]. unfold midpoint. cbn [fst snd].
  rewrite Hlr in Hv. apply Ok_inj in Hv.
  split; [exact Hr|]. split; [exact Hlr|].
  split; [rewrite Hw; exact Hv|]. split; [exact Hv|].
  split; [lra|]. split; [lra|]. lra.
Qed.

(** ** Shapes kept by the training loop *)

Lemma zip_with_length {A B C : Type} (f : A -> B -> C) (u : list A) :
  forall v, length u = length v -> length (zip_with f u v) = length u.
Proof.
  induction u as [|x u IH]; intros [|z v] H; simpl in *; try discriminate; auto.
Qed.

Lemma transpose_vec_length (ncols : nat) (rows : list (list R)) (v : list R) :
  length (transpose_vec ncols rows v) = ncols.
Proof. unfold transpose_vec. now rewrite length_map, length_seq. Qed.

Lemma probabilities_length (rows : list (list R)) (a : R) (w : list R) :
  length (probabilities rows a w) = length rows.
Proof. unfold probabilities, mat_vec. now rewrite !length_map. Qed.

Lemma random_init_length (rand : nat -> R) (ncols : nat) :
  length (snd (random_init rand ncols)) = ncols.
Proof. unfold random_init. simpl. now rewrite length_map, length_seq. Qed.

Lemma fit_loop_length
    (ncols : nat) (rows : list (list R)) (y : list R) (eps lr_max : R) (max_iters : Z)
    (lr_fuel : nat) :
  forall (fuel : nat) (a : R) (w : list R) (f_old : R) (it : Z) (out : list line)
         a' w' it' out',
    length w = ncols ->
    fit_loop fuel lr_fuel ncols rows y eps lr_max max_iters a w f_old it out
      = Ok (a', w', it', out') ->
    length w' = ncols.
Proof.
  induction fuel as [|fuel IH]; intros a w f_old it out a' w' it' out' Hw Hr;
    [discriminate|].
  cbn [fit_loop] in Hr. cbv zeta in Hr.
  apply bind_Ok_inv in Hr. destruct Hr as (lr & _ & Hr).
  assert (Hlen : length (axpy lr w (snd (__calculate_gradient ncols rows y a w))) = ncols).
  { unfold axpy, __calculate_gradient. cbn [snd].
    rewrite zip_with_length; [exact Hw|]. now rewrite transpose_vec_length. }
  destruct (Rlt_dec _ eps).
  - injection Hr as _ <- _ _. exact Hlen.
  - destruct (_ >=? max_iters)%Z.
    + injection Hr as _ <- _ _. exact Hlen.
    + eapply IH; [exact Hlen | exact Hr].
Qed.

Lemma calc_quality_loop_fuel (y_target : list R) :
  forall q y_real, calc_quality_loop q y_target y_real <> OutOfFuel.
Proof.
  induction y_target as [|t y IH]; intros q [|r y_real]; simpl; try discriminate.
  apply IH.
Qed.

Lemma roc_dist_fuel (y p : list R) (th : R) : roc_dist y p th <> OutOfFuel.
Proof.
  unfold roc_dist, __calc_quality.
  destruct (calc_quality_loop _ y (ge_mask p th)) as [q| |] eqn:E; simpl; try discriminate.
  - unfold py_div. destruct (Req_dec_T _ 0); simpl; try discriminate.
    destruct (Req_dec_T _ 0); simpl; discriminate.
  - now apply calc_quality_loop_fuel in E.
Qed.

Lemma best_th_loop_fuel (y p : list R) (ths : list R) :
  forall best_th min_dist, best_th_loop ths y p best_th min_dist <> OutOfFuel.
Proof.
  induction ths as [|th ths IH]; intros best_th min_dist.
  - discriminate.
  - rewrite best_th_loop_cons.
    destruct (roc_dist y p th) as [dist| |] eqn:E; simpl; try discriminate.
    + destruct (Rlt_dec dist min_dist); apply IH.
    + now apply roc_dist_fuel in E.
Qed.

Lemma calc_best_th_fuel (y p : list R) : __calc_best_th y p <> OutOfFuel.
Proof. unfold __calc_best_th. apply best_th_loop_fuel. Qed.

(** ** Runs of [fit] *)

(** On well-shaped data and admissible parameters, with fuel for 24 turns
    of the line search and [max_iters] turns of the ascent, [fit] runs its
    loop to the end, assigns the free term and the coefficients, and then
    calibrates the threshold on the probabilities of the training rows. *)
Lemma fit_run (fuel : nat) (rand : nat -> R) (self : Model)
    (ncols : nat) (rows : list (list R)) (yv : list R) (eps lr_max : R) (max_iters : Z) :
  length rows = length yv ->
  0 < eps -> 0 < lr_max -> (1 <= max_iters)%Z ->
  (24 <= fuel)%nat -> (max_iters <= Z.of_nat fuel)%Z ->
  exists a w it f0 fs,
    length w = ncols /\
    stops_at_first eps max_iters f0 1 fs /\
    (1 <= Z.of_nat (length fs) <= max_iters)%Z /\
    fit fuel rand self (NdArray2 ncols rows) (NdArray1 yv) eps lr_max max_iters =
      let out := (Progress 0 f0 :: progress_from 1 fs ++ [stop_line it max_iters])%list in
      match __calc_best_th yv (probabilities rows a w) with
      | Ok th => (Ok tt, mkModel (Some a) (Some w) (Some th), out)
      | Raise e => (Raise e, mkModel (Some a) (Some w) (__th self), out)
      | OutOfFuel => (OutOfFuel, mkModel (Some a) (Some w) (__th self), out)
      end.
Proof.
  intros Hshape Heps Hlr Hmax Hfuel Hfuel'.
  unfold fit. rewrite Hshape, Nat.eqb_refl. cbn [negb].
  destruct (Rle_dec eps 0) as [H|_]; [lra|].
  destruct (Rle_dec lr_max 0) as [H|_]; [lra|].
  destruct (max_iters <? 1)%Z eqn:Hm; [apply Z.ltb_lt in Hm; lia|].
  pose proof (random_init_length rand ncols) as Hw0.
  destruct (random_init rand ncols) as [a0 w0]. cbn [snd] in Hw0.
  set (f0 := __calculate_log_likelihood rows yv a0 w0).
  destruct (fit_loop_terminates ncols rows yv eps lr_max max_iters fuel Hlr Hfuel
              fuel a0 w0 f0 1%Z [Progress 0 f0])
    as (a & w & it & fs & Hr & Hs & Hn & Hit); [lia | lia |].
  pose proof (fit_loop_length _ _ _ _ _ _ _ _ _ _ _ _ _ _ _ _ _ Hw0 Hr) as Hw.
  rewrite Hr.
  exists a, w, it, f0, fs.
  split; [exact Hw|]. split; [exact Hs|].
  split.
  { split; [|lia]. destruct fs; [destruct Hs | simpl length; lia]. }
  unfold transform. cbn [__a __b]. rewrite Hw, Nat.eqb_refl. cbn [bind].
  cbv zeta. fold (stop_line it max_iters).
  destruct (__calc_best_th yv (probabilities rows a w)); reflexivity.
Qed.

(** ** A learning rate bound that underflows *)

(** With [lr_max = 5e-324], the least positive binary64 number, the
    tolerance [0.00001 * lr_max] is [0.0], and the bracket moves between
    five states, in each of which [abs(lr_min - lr_max) >= 0.0] holds. *)
Lemma golden_loop_tiny (L : float -> float) (fuel : nat) :
  Binary64.golden_loop fuel L 0 0 5e-324 0 5e-324 = OutOfFuel /\
  Binary64.golden_loop fuel L 0 0 5e-324 5e-324 5e-324 = OutOfFuel /\
  Binary64.golden_loop fuel L 0 0 5e-324 0 0 = OutOfFuel /\
  Binary64.golden_loop fuel L 0 5e-324 5e-324 5e-324 5e-324 = OutOfFuel /\
  Binary64.golden_loop fuel L 0 0 0 0 0 = OutOfFuel.
Proof.
  induction fuel as [|fuel (H0 & H1 & H2 & H3 & H4)].
  - repeat split; reflexivity.
  - repeat split; cbn [Binary64.golden_loop]; cbv zeta.
    + change (0 <=? abs (0 - 5e-324))%float with true. cbv iota.
      destruct (L 0 <=? L 5e-324)%float; [exact H1 | exact H2].
    + change (0 <=? abs (0 - 5e-324))%float with true. cbv iota.
      destruct (L 5e-324 <=? L 5e-324)%float; [exact H3 | exact H0].
    + change (0 <=? abs (0 - 5e-324))%float with true. cbv iota.
      destruct (L 0 <=? L 0)%float; [exact H0 | exact H4].
    + change (0 <=? abs (5e-324 - 5e-324))%float with true. cbv iota.
      destruct (L 5e-324 <=? L 5e-324)%float; [exact H3 | exact H3].
    + change (0 <=? abs (0 - 0))%float with true. cbv iota.
      destruct (L 0 <=? L 0)%float; [exact H4 | exact H4].
Qed.

Lemma find_best_lr_tiny (L : float -> float) (fuel : nat) :
  Binary64.__find_best_lr fuel L 5e-324 = OutOfFuel.
Proof.
  unfold Binary64.__find_best_lr. cbv zeta.
  change (Binary64.golden_loop fuel L (0.00001 * (5e-324 - 0)) 0 5e-324
            (5e-324 - (5e-324 - 0) / Binary64.theta)
            (0 + (5e-324 - 0) / Binary64.theta))%float
    with (Binary64.golden_loop fuel L 0 0 5e-324 0 5e-324).
  now rewrite (proj1 (golden_loop_tiny L fuel)).
Qed.

(** C8.  [fit] accepts [lr_max = 5e-324], which is positive, and then
    never leaves the line search of its first turn: whatever NumPy
    computes and however much fuel there is, the run has printed the
    initial line only and is still in the loop. *)
Theorem fit_hangs_on_tiny_lr_max
    (np_dot np_tdot : list (list float) -> list float -> list float)
    (np_sum : list float -> float) (np_exp np_log : float -> float)
    (rand : nat -> float) (self : Binary64.Model) (fuel : nat) :
  (5e-324 <=? 0)%float = false /\
  (forall L lr_fuel, Binary64.__find_best_lr lr_fuel L 5e-324 = OutOfFuel) /\
  exists a0 w0 f0,
    Binary64.fit np_dot np_tdot np_sum np_exp np_log fuel rand self
      (Binary64.NdArray2 1 [[1]; [-1]]%float) (Binary64.NdArray1 [1; 0]%float)
      0.001 5e-324 1000
    = (OutOfFuel, Binary64.mkModel (Some a0) (Some w0) (Binary64.__th self),
       [Binary64.Progress 0 f0]).
Proof.
  split; [reflexivity|]. split; [intros L lr_fuel; apply find_best_lr_tiny|].
  unfold Binary64.fit. cbn [length Nat.eqb negb].
  change (0.001 <=? 0)%float with false. change (5e-324 <=? 0)%float with false.
  change (1000 <? 1)%Z with false. cbv iota.
  destruct (Binary64.random_init rand 1) as [a0 w0].
  exists a0, w0, (Binary64.__calculate_log_likelihood np_dot np_sum np_exp np_log
                    [[1]; [-1]]%float [1; 0]%float a0 w0).
  destruct fuel as [|fuel]; [reflexivity|].
  cbn [Binary64.fit_loop]. cbv zeta. rewrite find_best_lr_tiny. reflexivity.
Qed.

(** With both classes among the labels [fit] returns normally, all three
    attributes are defined, and the threshold is the one [__calc_best_th]
    returns on the probabilities of the training rows under the fitted
    parameters. *)
Lemma fit_calibrates (fuel : nat) (rand : nat -> R) (self : Model)
    (ncols : nat) (rows : list (list R)) (yv : list R) (eps lr_max : R) (max_iters : Z) :
  length rows = length yv ->
  0 < eps -> 0 < lr_max -> (1 <= max_iters)%Z ->
  (24 <= fuel)%nat -> (max_iters <= Z.of_nat fuel)%Z ->
  Exists (fun t => t > 0) yv ->
  Exists (fun t => ~ t > 0) yv ->
  exists a w th out,
    fit fuel rand self (NdArray2 ncols rows) (NdArray1 yv) eps lr_max max_iters
      = (Ok tt, mkModel (Some a) (Some w) (Some th), out) /\
    length w = ncols /\
    __calc_best_th yv (probabilities rows a w) = Ok th.
Proof.
  intros Hshape Heps Hlr Hmax Hfuel Hfuel' Hp Hn.
  apply positives_Exists in Hp. apply negatives_Exists in Hn.
  destruct (fit_run fuel rand self ncols rows yv eps lr_max max_iters
              Hshape Heps Hlr Hmax Hfuel Hfuel')
    as (a & w & it & f0 & fs & Hw & _ & _ & Hfit).
  assert (Hlen : length (probabilities rows a w) = length yv)
    by (now rewrite probabilities_length).
  destruct (best_th_loop_spec yv (probabilities rows a w) Hlen Hp Hn candidates 0 1)
    as (th & Hr & _).
  exists a, w, th, (Progress 0 f0 :: progress_from 1 fs ++ [stop_line it max_iters])%list.
  rewrite Hfit. cbv zeta. unfold __calc_best_th. rewrite Hr.
  split; [reflexivity|]. split; [exact Hw | reflexivity].
Qed.

(** ** Degenerate labels *)

(** When no label is positive, or none is anything else, [fit] leaves
    with the [ZeroDivisionError] of the calibration: the free term and the
    coefficients have been assigned, the threshold has not. *)
Lemma fit_degenerate (fuel : nat) (rand : nat -> R) (self : Model)
    (ncols : nat) (rows : list (list R)) (yv : list R) (eps lr_max : R) (max_iters : Z) :
  length rows = length yv ->
  0 < eps -> 0 < lr_max -> (1 <= max_iters)%Z ->
  (24 <= fuel)%nat -> (max_iters <= Z.of_nat fuel)%Z ->
  (positives yv = 0 \/ negatives yv = 0)%nat ->
  exists a w out,
    fit fuel rand self (NdArray2 ncols rows) (NdArray1 yv) eps lr_max max_iters
      = (Raise ZeroDivisionError, mkModel (Some a) (Some w) (__th self), out).
Proof.
  intros Hshape Heps Hlr Hmax Hfuel Hfuel' Hdeg.
  destruct (fit_run fuel rand self ncols rows yv eps lr_max max_iters
              Hshape Heps Hlr Hmax Hfuel Hfuel')
    as (a & w & it & f0 & fs & _ & _ & _ & Hfit).
  rewrite Hfit. cbv zeta.
  rewrite calc_best_th_degenerate; [| now rewrite probabilities_length | exact Hdeg].
  now exists a, w, (Progress 0 f0 :: progress_from 1 fs ++ [stop_line it max_iters])%list.
Qed.

Lemma negatives_all_ones : negatives [1] = O.
Proof.
  unfold negatives, is_positive. simpl.
  destruct (Rgt_dec 1 0); [reflexivity | lra].
Qed.

Lemma positives_all_zeros : positives [0; 0] = O.
Proof.
  unfold positives, is_positive. simpl.
  destruct (Rgt_dec 0 0); [lra | reflexivity].
Qed.

(** C4.  [fit] with the default parameters on one sample labelled 1: the
    call ends with [ZeroDivisionError], and the threshold of the new
    object is still undefined. *)
Theorem fit_all_ones_raises :
  exists self' out,
    fit 1000 (fun _ => 0.5) __init__ (NdArray2 1 [[0]]) (NdArray1 [1]) 0.001 1 1000
      = (Raise ZeroDivisionError, self', out) /\
    __th self' = None.
Proof.
  destruct (fit_degenerate 1000 (fun _ => 0.5) __init__ 1 [[0]] [1] 0.001 1 1000)
    as (a & w & out & Hfit); try reflexivity; try lra; try lia.
  - right. exact negatives_all_ones.
  - exists (mkModel (Some a) (Some w) (__th __init__)), out. split; [exact Hfit | reflexivity].
Qed.

(** C3.  [fit] with the default parameters on two samples labelled 0,
    called on a new object: the call raises, and afterwards the free term
    and the coefficients are defined while the threshold is not. *)
Theorem fit_leaves_partial_state :
  exists e self' out,
    fit 1000 (fun _ => 0.5) __init__ (NdArray2 1 [[1]; [2]]) (NdArray1 [0; 0]) 0.001 1 1000
      = (Raise e, self', out) /\
    __a self' <> None /\ __b self' <> None /\ __th self' = None /\
    ~ all_or_none self'.
Proof.
  destruct (fit_degenerate 1000 (fun _ => 0.5) __init__ 1 [[1]; [2]] [0; 0] 0.001 1 1000)
    as (a & w & out & Hfit); try reflexivity; try lra; try lia.
  - left. exact positives_all_zeros.
  - exists ZeroDivisionError, (mkModel (Some a) (Some w) (__th __init__)), out.
    split; [exact Hfit|]. cbn. repeat split; try discriminate.
    intros [(H & _) | (_ & _ & H)]; [discriminate | now apply H].
Qed.

(** ** Scoring and thresholding *)




Lemma ge_mask_nth (ps : list R) (th : R) (i : nat) (v : R) :
  nth_error ps i = Some v ->
  nth_error (ge_mask ps th) i = Some (if Rge_dec v th then 1 else 0).
Proof. intros Hv. unfold ge_mask. now rewrite nth_error_map, Hv. Qed.

(** C7.  For a fitted model and any input, [predict] raises exactly when
    [transform] does, with the same exception; when [transform] returns,
    [predict] returns a label per probability, 1 where the probability is
    at least the threshold and 0 elsewhere. *)
Theorem predict_thresholds (self : Model) (a th : R) (w : list R) (X : pyvalue) :
  __a self = Some a -> __b self = Some w -> __th self = Some th ->
  (forall e, predict self X = Raise e <-> transform self X = Raise e) /\
  (forall ps, transform self X = Ok ps ->
     exists labels,
       predict self X = Ok labels /\
       length labels = length ps /\
       forall i v, nth_error ps i = Some v ->
         (nth_error labels i = Some 1 <-> v >= th) /\
         (nth_error labels i = Some 0 <-> ~ v >= th)).
Proof.
  intros Ha Hb Hth. unfold predict. rewrite Hth. split.
  - intros e. destruct (transform self X) as [ps|e'|]; simpl; split; intros H;
      try discriminate; exact H.
  - intros ps ->. simpl. exists (ge_mask ps th). split; [reflexivity|].
    split; [unfold ge_mask; apply length_map|].
    intros i v Hv. rewrite (ge_mask_nth ps th i v Hv).
    destruct (Rge_dec v th) as [Hge|Hlt]; split; split; intros H;
      try reflexivity; try assumption; try contradiction.
    + exfalso. injection H as H. lra.
    + exfalso. injection H as H. lra.
Qed.

Lemma predict_thresholds_witness :
  __a (mkModel (Some 0) (Some [1]) (Some 0.5)) = Some 0 /\
  __b (mkModel (Some 0) (Some [1]) (Some 0.5)) = Some [1] /\
  __th (mkModel (Some 0) (Some [1]) (Some 0.5)) = Some 0.5 /\
  (forall e, predict (mkModel (Some 0) (Some [1]) (Some 0.5)) (NdArray2 1 [[2]]) = Raise e
             <-> transform (mkModel (Some 0) (Some [1]) (Some 0.5)) (NdArray2 1 [[2]]) = Raise e) /\
  (forall ps, transform (mkModel (Some 0) (Some [1]) (Some 0.5)) (NdArray2 1 [[2]]) = Ok ps ->
     exists labels,
       predict (mkModel (Some 0) (Some [1]) (Some 0.5)) (NdArray2 1 [[2]]) = Ok labels /\
       length labels = length ps /\
       forall i v, nth_error ps i = Some v ->
         (nth_error labels i = Some 1 <-> v >= 0.5) /\
         (nth_error labels i = Some 0 <-> ~ v >= 0.5)).
Proof.
  repeat (split; [reflexivity|]).
  apply (predict_thresholds (mkModel (Some 0) (Some [1]) (Some 0.5)) 0 0.5 [1]
           (NdArray2 1 [[2]])); reflexivity.
Defined.

(** ** Stripping, splitting and reading lines *)

Module TextFacts.

Import Text.
Open Scope string_scope.

Lemma append_nil_r (s : string) : s ++ "" = s.
Proof. induction s as [|c s IH]; simpl; [reflexivity | now rewrite IH]. Qed.

Lemma append_assoc (s t u : string) : (s ++ t) ++ u = s ++ t ++ u.
Proof. induction s as [|c s IH]; simpl; [reflexivity | now rewrite IH]. Qed.

Lemma isspace_newline : isspace newline = true.
Proof. reflexivity. Qed.

Lemma no_space_app (s t : string) :
  no_space (s ++ t) = no_space s && no_space t.
Proof.
  induction s as [|c s IH]; simpl; [reflexivity|].
  rewrite IH. now rewrite andb_assoc.
Qed.

Lemma token_nonempty (s : string) : token s -> exists c s', s = String c s' /\ isspace c = false.
Proof.
  intros [Hne Hns]. destruct s as [|c s']; [contradiction|].
  exists c, s'. split; [reflexivity|]. simpl in Hns.
  apply andb_prop in Hns. destruct Hns as [Hc _]. now apply negb_true_iff in Hc.
Qed.

Lemma lstrip_token (s t : string) : token s -> lstrip (s ++ t) = s ++ t.
Proof.
  intros Hs. destruct (token_nonempty s Hs) as (c & s' & -> & Hc).
  simpl. now rewrite Hc.
Qed.

Lemma rstrip_no_space (s : string) : no_space s = true -> rstrip s = s.
Proof.
  induction s as [|c s IH]; intros H; [reflexivity|].
  simpl in H. apply andb_prop in H. destruct H as [Hc Hs].
  apply negb_true_iff in Hc. simpl. rewrite (IH Hs), Hc.
  destruct s; reflexivity.
Qed.

Lemma rstrip_line (s : string) :
  no_space s = true -> rstrip (s ++ String newline "") = s.
Proof.
  induction s as [|c s IH]; intros H; [reflexivity|].
  simpl in H. apply andb_prop in H. destruct H as [Hc Hs].
  apply negb_true_iff in Hc.
  change (rstrip (String c (s ++ String newline ""))
          = String c s).
  cbn [rstrip]. rewrite (IH Hs), Hc. destruct s; reflexivity.
Qed.

Lemma rstrip_prefix (p t : string) :
  rstrip t <> "" -> rstrip (p ++ t) = p ++ rstrip t.
Proof.
  intros Ht. induction p as [|c p IH]; [reflexivity|].
  cbn [append rstrip]. rewrite IH.
  destruct (p ++ rstrip t) eqn:E; [|reflexivity].
  destruct p; simpl in E; [contradiction | discriminate].
Qed.

(** A line made of a token and its line feed strips to the token. *)
Lemma strip_token_line (s : string) :
  token s -> strip (s ++ String newline "") = s.
Proof.
  intros Hs. unfold strip. rewrite lstrip_token by exact Hs.
  apply rstrip_line. apply Hs.
Qed.

Lemma strip_blank_line : strip (String newline "") = "".
Proof. reflexivity. Qed.

Lemma split_from_token (cur t : string) :
  no_space t = true -> cur ++ t <> "" -> split_from cur t = [cur ++ t].
Proof.
  revert cur. induction t as [|c t IH]; intros cur Hns Hne.
  - rewrite append_nil_r in *. simpl. destruct cur; [contradiction | reflexivity].
  - simpl in Hns. apply andb_prop in Hns. destruct Hns as [Hc Ht].
    apply negb_true_iff in Hc. simpl. rewrite Hc.
    rewrite IH; [now rewrite append_assoc | exact Ht |].
    rewrite append_assoc. simpl. destruct cur; discriminate.
Qed.

Lemma no_space_no_newline (s : string) : no_space s = true -> no_newline s = true.
Proof.
  induction s as [|c s IH]; intros H; [reflexivity|].
  simpl in H. apply andb_prop in H. destruct H as [Hc Hs].
  simpl. rewrite (IH Hs), andb_true_r.
  destruct (Ascii.eqb c newline) eqn:E; [|reflexivity].
  apply Ascii.eqb_eq in E. subst c. discriminate.
Qed.

Lemma no_newline_app (s t : string) :
  no_newline (s ++ t) = no_newline s && no_newline t.
Proof.
  induction s as [|c s IH]; simpl; [reflexivity|].
  rewrite IH. now rewrite andb_assoc.
Qed.

(** The lines of a text that starts with a line free of line feeds. *)
Lemma readlines_line (s rest : string) :
  no_newline s = true ->
  readlines (s ++ String newline rest) = (s ++ String newline "") :: readlines rest.
Proof.
  induction s as [|c s IH]; intros H.
  - reflexivity.
  - simpl in H. apply andb_prop in H. destruct H as [Hc Hs].
    apply negb_true_iff in Hc.
    cbn [append readlines]. rewrite Hc. now rewrite (IH Hs).
Qed.

Lemma concat_empty_cons (x : string) (xs : list string) :
  String.concat "" (x :: xs) = x ++ String.concat "" xs.
Proof. destruct xs; simpl; [now rewrite append_nil_r | reflexivity]. Qed.

Lemma append_char (s t u : string) (c : ascii) :
  (s ++ String c t) ++ u = s ++ String c (t ++ u).
Proof. now rewrite append_assoc. Qed.

Lemma readlines_blank (rest : string) :
  readlines (String newline rest) = String newline "" :: readlines rest.
Proof. reflexivity. Qed.

Lemma no_space_uint (u : Decimal.uint) : no_space (NilEmpty.string_of_uint u) = true.
Proof. induction u; simpl; auto. Qed.

Lemma str_of_nat_token (n : nat) : (0 < n)%nat -> token (str_of_nat n).
Proof.
  intros Hn. split; [|apply no_space_uint].
  unfold str_of_nat. intros E.
  assert (Hu : Nat.to_uint n = Decimal.Nil).
  { destruct (Nat.to_uint n); try discriminate; reflexivity. }
  pose proof (DecimalNat.Unsigned.of_to n) as H. rewrite Hu in H. cbv in H. lia.
Qed.

End TextFacts.

(** ** Reading a saved model *)

Section LoadFacts.

Variable int_of_str : string -> option Z.
Variable float_of_str : string -> option R.

Lemma nonempty_length (s : string) : s <> EmptyString -> (0 <? String.length s)%nat = true.
Proof. destruct s; [contradiction | reflexivity]. Qed.

(** A line that is blank once stripped is skipped. *)
Lemma load_loop_blank (l : string) (ls : list string) (n i : Z) (self : Model) :
  Text.strip l = EmptyString ->
  load_loop int_of_str float_of_str (l :: ls) n i self = load_loop int_of_str float_of_str ls n i self.
Proof. intros H. cbn [load_loop]. cbv zeta. rewrite H. reflexivity. Qed.

(** The header: the first line that is not blank, read while [input_size <= 0]. *)
Lemma load_loop_header (l : string) (ls : list string) (n i : Z) (self : Model)
    (p0 p1 p2 : string) (d : Z) :
  Text.strip l <> EmptyString ->
  (n <= 0)%Z ->
  Text.split (Text.strip l) = [p0; p1; p2] ->
  Text.lower p0 = "input"%string -> Text.lower p1 = "size"%string ->
  int_of_str p2 = Some d -> (0 < d)%Z ->
  load_loop int_of_str float_of_str (l :: ls) n i self =
  load_loop int_of_str float_of_str ls d i (mkModel (Some 0.0) (Some (repeat 0 (Z.to_nat d))) (Some 0.5)).
Proof.
  intros Hs Hn Hsplit H0 H1 Hint Hd.
  cbn [load_loop]. cbv zeta.
  rewrite (nonempty_length _ Hs).
  apply Z.leb_le in Hn. rewrite Hn, Hsplit, H0, H1.
  rewrite !String.eqb_refl. cbn [negb orb]. rewrite Hint.
  apply Z.leb_gt in Hd. now rewrite Hd.
Qed.

(** A data line whose text is a number, read once the header is known. *)
Lemma load_loop_data (l : string) (ls : list string) (n i : Z) (self : Model) (v : R) :
  Text.strip l <> EmptyString ->
  (0 < n)%Z -> (i <= n + 1)%Z ->
  float_of_str (Text.strip l) = Some v ->
  load_loop int_of_str float_of_str (l :: ls) n i self =
  if (i <? n)%Z then
    match __b self with
    | None => (Raise TypeError, self)
    | Some w =>
        match list_set w (Z.to_nat i) v with
        | Ok w' => load_loop int_of_str float_of_str ls n (i + 1)%Z (mkModel (__a self) (Some w') (__th self))
        | Raise e => (Raise e, self)
        | OutOfFuel => (OutOfFuel, self)
        end
    end
  else if (i =? n)%Z then
    load_loop int_of_str float_of_str ls n (i + 1)%Z (mkModel (Some v) (__b self) (__th self))
  else
    let self' := mkModel (__a self) (__b self) (Some v) in
    if Rlt_dec v 0 then (Raise (LogRegError msg_cannot_load), self')
    else if Rgt_dec v 1 then (Raise (LogRegError msg_cannot_load), self')
    else load_loop int_of_str float_of_str ls n (i + 1)%Z self'.
Proof.
  intros Hs Hn Hi Hv.
  cbn [load_loop]. cbv zeta.
  rewrite (nonempty_length _ Hs).
  apply Z.leb_gt in Hn. rewrite Hn.
  assert (Hgt : (i >? n + 1)%Z = false) by (rewrite Z.gtb_ltb; apply Z.ltb_ge; lia).
  rewrite Hgt, Hv. reflexivity.
Qed.

(** A data line whose text is not a number. *)
Lemma load_loop_bad_number (l : string) (ls : list string) (n i : Z) (self : Model) :
  Text.strip l <> EmptyString ->
  (0 < n)%Z -> (i <= n + 1)%Z ->
  float_of_str (Text.strip l) = None ->
  load_loop int_of_str float_of_str (l :: ls) n i self = (Raise ValueError, self).
Proof.
  intros Hs Hn Hi Hv.
  cbn [load_loop]. cbv zeta.
  rewrite (nonempty_length _ Hs).
  apply Z.leb_gt in Hn. rewrite Hn.
  assert (Hgt : (i >? n + 1)%Z = false) by (rewrite Z.gtb_ltb; apply Z.ltb_ge; lia).
  rewrite Hgt, Hv. reflexivity.
Qed.

(** A data line after the threshold has been read. *)
Lemma load_loop_extra (l : string) (ls : list string) (n i : Z) (self : Model) :
  Text.strip l <> EmptyString ->
  (0 < n)%Z -> (n + 1 < i)%Z ->
  load_loop int_of_str float_of_str (l :: ls) n i self = (Raise (LogRegError msg_cannot_load), self).
Proof.
  intros Hs Hn Hi.
  cbn [load_loop]. cbv zeta.
  rewrite (nonempty_length _ Hs).
  apply Z.leb_gt in Hn. rewrite Hn.
  assert (Hgt : (i >? n + 1)%Z = true) by (rewrite Z.gtb_ltb; apply Z.ltb_lt; lia).
  now rewrite Hgt.
Qed.

Lemma list_set_app (done rest : list R) (x v : R) :
  list_set (done ++ x :: rest) (length done) v = Ok (done ++ v :: rest).
Proof.
  induction done as [|z done IH]; simpl; [reflexivity|]. now rewrite IH.
Qed.

Lemma list_set_length (w : list R) :
  forall i v, (i < length w)%nat ->
              exists w', list_set w i v = Ok w' /\ length w' = length w.
Proof.
  induction w as [|x w IH]; intros i v Hi; simpl in Hi; [lia|].
  destruct i as [|i]; simpl.
  - now exists (v :: w).
  - destruct (IH i v) as (w' & -> & Hl); [lia|]. exists (x :: w'). simpl. now rewrite Hl.
Qed.

(** [load] keeps the attributes all undefined or all defined, also when
    it raises: the header assigns the three of them at once, and every
    later line replaces one that is defined already. *)
Lemma load_loop_all_or_none (lines : list string) :
  forall (n i : Z) (self : Model),
    all_or_none self ->
    ((0 < n)%Z -> __a self <> None /\ __b self <> None /\ __th self <> None) ->
    all_or_none (snd (load_loop int_of_str float_of_str lines n i self)).
Proof.
  induction lines as [|l ls IH]; intros n i self Hinv Hdef.
  - cbn [load_loop]. destruct (i <=? n + 1)%Z; exact Hinv.
  - cbn [load_loop]. cbv zeta.
    destruct (0 <? String.length (Text.strip l))%nat; [|now apply IH].
    destruct (n <=? 0)%Z eqn:En.
    + destruct (Text.split (Text.strip l)) as [|p0 [|p1 [|p2 [|p3 ps]]]]; try exact Hinv.
      destruct (_ || _); [exact Hinv|].
      destruct (int_of_str p2) as [d|]; [|exact Hinv].
      destruct (d <=? 0)%Z; [exact Hinv|].
      apply IH.
      * right. cbn. repeat split; discriminate.
      * intros _. cbn. repeat split; discriminate.
    + apply Z.leb_gt in En. destruct (Hdef En) as (Ha & Hb & Hth).
      destruct (i >? n + 1)%Z; [exact Hinv|].
      destruct (float_of_str (Text.strip l)) as [v|]; [|exact Hinv].
      destruct (i <? n)%Z.
      * destruct (__b self) as [w|]; [|exact Hinv].
        destruct (list_set w (Z.to_nat i) v) as [w'| |]; try exact Hinv.
        apply IH.
        -- right. cbn. repeat split; try assumption; discriminate.
        -- intros _. cbn. repeat split; try assumption; discriminate.
      * destruct (i =? n)%Z.
        -- apply IH.
           ++ right. cbn. repeat split; try assumption; discriminate.
           ++ intros _. cbn. repeat split; try assumption; discriminate.
        -- assert (Hnew : all_or_none (mkModel (__a self) (__b self) (Some v))).
           { right. cbn. repeat split; try assumption; discriminate. }
           destruct (Rlt_dec v 0); [exact Hnew|].
           destruct (Rgt_dec v 1); [exact Hnew|].
           apply IH; [exact Hnew|].
           intros _. cbn. repeat split; try assumption; discriminate.
Qed.

(** X15.  [load] keeps the attributes all undefined or all defined,
    whether it returns or raises, and whatever the file holds. *)
Lemma load_all_or_none (self : Model) (file_name : string) (fs : filesystem) :
  all_or_none self ->
  all_or_none (snd (load int_of_str float_of_str self file_name fs)).
Proof.
  intros Hinv. unfold load. destruct (fs file_name); [|exact Hinv].
  apply load_loop_all_or_none; [exact Hinv | lia].
Qed.

End LoadFacts.

(** ** Saving and reading back *)

Section RoundTrip.

Variable int_of_str : string -> option Z.
Variable float_of_str : string -> option R.
Variable str_of_float : R -> string.

Lemma readlines_numbers (w : list R) (rest : string) :
  Forall (round_trips float_of_str str_of_float) w ->
  Text.readlines (String.concat "" (map (number_line str_of_float) w) ++ rest)
  = (map (number_line str_of_float) w ++ Text.readlines rest)%list.
Proof.
  induction 1 as [|x w [[_ Hx] _] _ IH]; [reflexivity|].
  cbn [map]. rewrite TextFacts.concat_empty_cons, TextFacts.append_assoc.
  unfold number_line at 1. rewrite TextFacts.append_char.
  rewrite TextFacts.readlines_line by (now apply TextFacts.no_space_no_newline).
  cbn [append]. rewrite IH. reflexivity.
Qed.

Lemma header_no_newline (d : nat) : Text.no_newline (header d) = true.
Proof.
  unfold header. rewrite TextFacts.no_newline_app.
  rewrite (TextFacts.no_space_no_newline (Text.str_of_nat d))
    by apply TextFacts.no_space_uint.
  reflexivity.
Qed.

Lemma serialize_shape (a : R) (w : list R) (th : R) :
  serialize str_of_float a w th =
  (header (length w)
   ++ String Text.newline
        (String Text.newline
           (String.concat "" (map (number_line str_of_float) w)
            ++ String Text.newline
                 (str_of_float a
                  ++ String Text.newline
                       (String Text.newline (str_of_float th ++ String Text.newline ""))))))%string.
Proof.
  unfold serialize, header, number_line.
  rewrite !TextFacts.append_assoc. reflexivity.
Qed.

Lemma readlines_serialize (a : R) (w : list R) (th : R) :
  (round_trips float_of_str str_of_float) a -> (round_trips float_of_str str_of_float) th -> Forall (round_trips float_of_str str_of_float) w ->
  Text.readlines (serialize str_of_float a w th) = saved_lines str_of_float a w th.
Proof.
  intros [[_ Ha] _] [[_ Hth] _] Hw. rewrite serialize_shape.
  rewrite TextFacts.readlines_line by apply header_no_newline.
  rewrite TextFacts.readlines_blank, (readlines_numbers w _ Hw).
  rewrite TextFacts.readlines_blank.
  rewrite TextFacts.readlines_line by (now apply TextFacts.no_space_no_newline).
  rewrite TextFacts.readlines_blank.
  rewrite TextFacts.readlines_line by (now apply TextFacts.no_space_no_newline).
  reflexivity.
Qed.

Lemma strip_header (d : nat) :
  (0 < d)%nat ->
  Text.strip (header d ++ String Text.newline "") = header d.
Proof.
  intros Hd. destruct (TextFacts.str_of_nat_token d Hd) as [Hne Hns].
  unfold Text.strip, header.
  replace (Text.lstrip (("Input size " ++ Text.str_of_nat d) ++ String Text.newline ""))%string
    with ("Input size " ++ (Text.str_of_nat d ++ String Text.newline ""))%string
    by (rewrite TextFacts.append_assoc; reflexivity).
  rewrite TextFacts.rstrip_prefix; rewrite TextFacts.rstrip_line by exact Hns;
    [reflexivity | exact Hne].
Qed.

Lemma split_header (d : nat) :
  (0 < d)%nat ->
  Text.split (header d) = ["Input"; "size"; Text.str_of_nat d]%string.
Proof.
  intros Hd. destruct (TextFacts.str_of_nat_token d Hd) as [Hne Hns].
  unfold Text.split, header.
  change (Text.split_from "" ("Input size " ++ Text.str_of_nat d))%string
    with ("Input"%string :: "size"%string :: Text.split_from "" (Text.str_of_nat d)).
  now rewrite TextFacts.split_from_token.
Qed.

Lemma header_nonempty (d : nat) : header d <> EmptyString.
Proof. unfold header. discriminate. Qed.

Lemma strip_number_line (x : R) :
  (round_trips float_of_str str_of_float) x -> Text.strip ((number_line str_of_float) x) = str_of_float x.
Proof. intros [Hx _]. now apply TextFacts.strip_token_line. Qed.

Lemma load_numbers (d : Z) (a0 th0 : option R) (rest : list string) (vs : list R) :
  Forall (round_trips float_of_str str_of_float) vs ->
  forall done : list R,
    d = Z.of_nat (length done + length vs) ->
    load_loop int_of_str float_of_str (map (number_line str_of_float) vs ++ rest) d
      (Z.of_nat (length done))
      (mkModel a0 (Some (done ++ repeat 0 (length vs))) th0)
    = load_loop int_of_str float_of_str rest d
        (Z.of_nat (length done + length vs))
        (mkModel a0 (Some (done ++ vs)) th0).
Proof.
  induction 1 as [|v vs Hv _ IH]; intros done Hd.
  - cbn [map app length repeat]. now rewrite Nat.add_0_r, app_nil_r.
  - cbn [map app length repeat] in *.
    rewrite (load_loop_data int_of_str float_of_str _ _ d _ _ v);
      [ | rewrite (strip_number_line v Hv); apply Hv | lia | lia
        | rewrite (strip_number_line v Hv); apply Hv ].
    assert (Hlt : (Z.of_nat (length done) <? d)%Z = true) by (apply Z.ltb_lt; lia).
    rewrite Hlt. cbn [__a __b __th]. rewrite Nat2Z.id, list_set_app.
    replace (Z.of_nat (length done) + 1)%Z with (Z.of_nat (length (done ++ [v])))
      by (rewrite length_app; simpl; lia).
    replace (done ++ v :: repeat 0 (length vs))%list
      with ((done ++ [v]) ++ repeat 0 (length vs))%list by (now rewrite <- app_assoc).
    rewrite IH by (rewrite length_app; simpl; lia).
    rewrite <- app_assoc. cbn [app]. do 2 f_equal.
    rewrite length_app. simpl. lia.
Qed.

(** Reading the lines of a saved file assigns the saved attributes. *)
Lemma load_saved_lines (self : Model) (a : R) (w : list R) (th : R) :
  (0 < length w)%nat ->
  int_of_str (Text.str_of_nat (length w)) = Some (Z.of_nat (length w)) ->
  (round_trips float_of_str str_of_float) a -> (round_trips float_of_str str_of_float) th -> Forall (round_trips float_of_str str_of_float) w ->
  0 <= th <= 1 ->
  load_loop int_of_str float_of_str (saved_lines str_of_float a w th) (-1) 0 self
  = (Ok tt, mkModel (Some a) (Some w) (Some th)).
Proof.
  intros Hd Hint Ha Hth Hw Hrange. unfold saved_lines.
  rewrite (load_loop_header int_of_str float_of_str _ _ _ _ _
             "Input" "size" (Text.str_of_nat (length w)) (Z.of_nat (length w)))%string;
    [ | rewrite strip_header by exact Hd; apply header_nonempty | lia
      | rewrite strip_header by exact Hd; now apply split_header
      | reflexivity | reflexivity | exact Hint | lia ].
  rewrite load_loop_blank by reflexivity.
  rewrite Nat2Z.id.
  pose proof (load_numbers (Z.of_nat (length w)) (Some 0.0) (Some 0.5)
                [blank_line; (number_line str_of_float) a; blank_line; (number_line str_of_float) th] w Hw []) as Hn.
  cbn [app length Nat.add] in Hn. change (Z.of_nat 0) with 0%Z in Hn.
  rewrite Hn by reflexivity. clear Hn.
  rewrite load_loop_blank by reflexivity.
  rewrite (load_loop_data int_of_str float_of_str _ _ _ _ _ a);
    [ | rewrite (strip_number_line a Ha); apply Ha | lia | lia
      | rewrite (strip_number_line a Ha); apply Ha ].
  rewrite Z.ltb_irrefl, Z.eqb_refl. cbn [__a __b __th].
  rewrite load_loop_blank by reflexivity.
  rewrite (load_loop_data int_of_str float_of_str _ _ _ _ _ th);
    [ | rewrite (strip_number_line th Hth); apply Hth | lia | lia
      | rewrite (strip_number_line th Hth); apply Hth ].
  assert (H1 : (Z.of_nat (length w) + 1 <? Z.of_nat (length w))%Z = false)
    by (apply Z.ltb_ge; lia).
  assert (H2 : (Z.of_nat (length w) + 1 =? Z.of_nat (length w))%Z = false)
    by (apply Z.eqb_neq; lia).
  rewrite H1, H2. cbv zeta. cbn [__a __b __th].
  destruct (Rlt_dec th 0) as [H|_]; [lra|].
  destruct (Rgt_dec th 1) as [H|_]; [lra|].
  cbn [load_loop].
  assert (H3 : (Z.of_nat (length w) + 1 + 1 <=? Z.of_nat (length w) + 1)%Z = false)
    by (apply Z.leb_gt; lia).
  now rewrite H3.
Qed.

End RoundTrip.

(** ** The round trip *)

Lemma write_file_read (fs : filesystem) (file_name contents : string) :
  write_file fs file_name contents file_name = Some contents.
Proof. unfold write_file. now rewrite String.eqb_refl. Qed.

(** C5, as amended.  For a model with at least one coefficient, a
    threshold in [0, 1], and numbers whose text reads back as the same
    number, [save] to a path succeeds and [load] from that path, on any
    object, succeeds and assigns the saved free term, coefficients and
    threshold. *)
Theorem save_load_roundtrip
    (int_of_str : string -> option Z) (float_of_str : string -> option R)
    (str_of_float : R -> string)
    (self other : Model) (a th : R) (w : list R) (file_name : string) (fs : filesystem) :
  __a self = Some a -> __b self = Some w -> __th self = Some th ->
  (1 <= length w)%nat ->
  0 <= th <= 1 ->
  int_of_str (Text.str_of_nat (length w)) = Some (Z.of_nat (length w)) ->
  round_trips float_of_str str_of_float a ->
  round_trips float_of_str str_of_float th ->
  Forall (round_trips float_of_str str_of_float) w ->
  exists fs',
    save str_of_float self file_name fs = (Ok tt, fs') /\
    load int_of_str float_of_str other file_name fs'
      = (Ok tt, mkModel (Some a) (Some w) (Some th)).
Proof.
  intros Ha Hb Hth Hd Hrange Hint Ra Rth Rw.
  exists (write_file fs file_name (serialize str_of_float a w th)).
  unfold save. rewrite Ha, Hb, Hth. split; [reflexivity|].
  unfold load. rewrite write_file_read.
  rewrite (readlines_serialize float_of_str str_of_float a w th Ra Rth Rw).
  apply load_saved_lines; assumption || lia.
Qed.

Lemma half_round_trips :
  round_trips Text.float_of_decimal (fun _ => "0.5"%string) 0.5.
Proof.
  split.
  - split; [discriminate | reflexivity].
  - cbv beta.
    assert (E : Text.float_of_decimal "0.5" = Some (0 + 5 / 10))
      by (unfold Text.float_of_decimal, Text.unsigned_of_decimal; cbn; reflexivity).
    rewrite E. f_equal. lra.
Qed.

Lemma save_load_roundtrip_witness :
  __a (mkModel (Some 0.5) (Some [0.5]) (Some 0.5)) = Some 0.5 /\
  __b (mkModel (Some 0.5) (Some [0.5]) (Some 0.5)) = Some [0.5] /\
  __th (mkModel (Some 0.5) (Some [0.5]) (Some 0.5)) = Some 0.5 /\
  (1 <= length [0.5%R])%nat /\
  0 <= 0.5 <= 1 /\
  Text.int_of_decimal (Text.str_of_nat (length [0.5])) = Some (Z.of_nat (length [0.5])) /\
  round_trips Text.float_of_decimal (fun _ => "0.5"%string) 0.5 /\
  Forall (round_trips Text.float_of_decimal (fun _ => "0.5"%string)) [0.5] /\
  exists fs',
    save (fun _ => "0.5"%string) (mkModel (Some 0.5) (Some [0.5]) (Some 0.5))
         "model.txt" (fun _ => None) = (Ok tt, fs') /\
    load Text.int_of_decimal Text.float_of_decimal __init__ "model.txt" fs'
      = (Ok tt, mkModel (Some 0.5) (Some [0.5]) (Some 0.5)).
Proof.
  assert (Hr : 0 <= 0.5 <= 1) by lra.
  assert (Hw : Forall (round_trips Text.float_of_decimal (fun _ => "0.5"%string)) [0.5])
    by (constructor; [exact half_round_trips | constructor]).
  split; [reflexivity|]. split; [reflexivity|]. split; [reflexivity|].
  split; [exact (le_n 1)|]. split; [exact Hr|]. split; [reflexivity|].
  split; [exact half_round_trips|]. split; [exact Hw|].
  exact (save_load_roundtrip Text.int_of_decimal Text.float_of_decimal
           (fun _ => "0.5"%string)
           (mkModel (Some 0.5) (Some [0.5]) (Some 0.5)) __init__ 0.5 0.5 [0.5]
           "model.txt"%string (fun _ => None)
           eq_refl eq_refl eq_refl (le_n 1) Hr eq_refl
           half_round_trips half_round_trips Hw).
Defined.

(** C5 as stated fails for a model without coefficients, which [fit]
    produces on training data of zero columns: [save] writes the header
    [Input size 0] and [load] rejects it. *)
Lemma save_load_no_coefficients :
  round_trips Text.float_of_decimal (fun _ => "0.5"%string) 0.5 /\
  0 <= 0.5 <= 1 /\
  exists fs',
    save (fun _ => "0.5"%string) (mkModel (Some 0.5) (Some []) (Some 0.5))
         "model.txt" (fun _ => None) = (Ok tt, fs') /\
    load Text.int_of_decimal Text.float_of_decimal __init__ "model.txt" fs'
      = (Raise (LogRegError msg_cannot_load), __init__).
Proof.
  split; [exact half_round_trips|]. split; [lra|].
  eexists. split; [reflexivity|].
  unfold load. rewrite write_file_read. reflexivity.
Qed.

(** ** Counting the data lines *)

Section LineCount.

Variable int_of_str : string -> option Z.
Variable float_of_str : string -> option R.

Lemma nonblank_true (l : string) : nonblank l = true -> Text.strip l <> EmptyString.
Proof.
  unfold nonblank. intros H E. rewrite E in H. discriminate.
Qed.

Lemma nonblank_false (l : string) : nonblank l = false -> Text.strip l = EmptyString.
Proof.
  unfold nonblank. intros H. apply negb_false_iff in H. now apply String.eqb_eq.
Qed.

(** With the header read, data lines that are all numbers and fewer than
    [d + 2] lead to the check at the end of the file, which raises. *)
Lemma load_loop_too_few (d : nat) (ls : list string) :
  (0 < d)%nat ->
  forall (i : Z) (self : Model) (w : list R),
    __b self = Some w -> length w = d -> (0 <= i)%Z ->
    Forall (is_number float_of_str) (data_lines ls) ->
    (i + Z.of_nat (length (data_lines ls)) < Z.of_nat d + 2)%Z ->
    exists self',
      load_loop int_of_str float_of_str ls (Z.of_nat d) i self
      = (Raise (LogRegError msg_cannot_load), self').
Proof.
  intros Hd. induction ls as [|l ls IH]; intros i self w Hb Hw Hi Hnum Hcount.
  - exists self. cbn [load_loop]. cbn [data_lines filter map length] in Hcount.
    assert (H : (i <=? Z.of_nat d + 1)%Z = true) by (apply Z.leb_le; lia).
    now rewrite H.
  - unfold data_lines in Hnum, Hcount. cbn [filter] in Hnum, Hcount.
    destruct (nonblank l) eqn:El.
    + cbn [map length] in Hnum, Hcount. fold (data_lines ls) in Hnum, Hcount.
      pose proof (Forall_inv Hnum) as Hs. pose proof (Forall_inv_tail Hnum) as Hrest.
      unfold is_number in Hs.
      destruct (float_of_str (Text.strip l)) as [v|] eqn:Ev; [|contradiction].
      rewrite (load_loop_data int_of_str float_of_str l ls (Z.of_nat d) i self v
                 (nonblank_true l El) ltac:(lia) ltac:(lia) Ev).
      destruct (i <? Z.of_nat d)%Z eqn:Elt.
      * apply Z.ltb_lt in Elt. rewrite Hb.
        destruct (list_set_length w (Z.to_nat i) v) as (w' & -> & Hw'); [lia|].
        apply (IH (i + 1)%Z _ w'); try reflexivity; try lia; try assumption.
      * apply Z.ltb_ge in Elt.
        destruct (i =? Z.of_nat d)%Z eqn:Eeq.
        -- apply (IH (i + 1)%Z _ w); try lia; try assumption.
        -- apply Z.eqb_neq in Eeq. lia.
    + rewrite (load_loop_blank int_of_str float_of_str l ls _ i self (nonblank_false l El)).
      apply (IH i self w); assumption.
Qed.

(** With the header read, more than [d + 2] data lines of which the first
    [d + 2] are numbers lead to a [LogRegError]: at the threshold when it
    is out of range, and otherwise at the first line past it. *)
Lemma load_loop_too_many (d : nat) (ls : list string) :
  (0 < d)%nat ->
  forall (i : Z) (self : Model) (w : list R),
    __b self = Some w -> length w = d -> (0 <= i <= Z.of_nat d + 2)%Z ->
    Forall (is_number float_of_str) (firstn (Z.to_nat (Z.of_nat d + 2 - i)) (data_lines ls)) ->
    (Z.of_nat d + 2 < i + Z.of_nat (length (data_lines ls)))%Z ->
    exists self',
      load_loop int_of_str float_of_str ls (Z.of_nat d) i self
      = (Raise (LogRegError msg_cannot_load), self').
Proof.
  intros Hd. induction ls as [|l ls IH]; intros i self w Hb Hw Hi Hnum Hcount.
  - cbn [data_lines filter map length] in Hcount. lia.
  - unfold data_lines in Hnum, Hcount. cbn [filter] in Hnum, Hcount.
    destruct (nonblank l) eqn:El.
    + cbn [map length] in Hnum, Hcount. fold (data_lines ls) in Hnum, Hcount.
      destruct (Z.eq_dec i (Z.of_nat d + 2)) as [Elast|Nlast].
      * exists self. apply load_loop_extra; [now apply nonblank_true | lia | lia].
      * replace (Z.to_nat (Z.of_nat d + 2 - i)) with (S (Z.to_nat (Z.of_nat d + 2 - (i + 1))))
          in Hnum by lia.
        cbn [firstn] in Hnum. pose proof (Forall_inv Hnum) as Hs. pose proof (Forall_inv_tail Hnum) as Hrest.
        unfold is_number in Hs.
        destruct (float_of_str (Text.strip l)) as [v|] eqn:Ev; [|contradiction].
        rewrite (load_loop_data int_of_str float_of_str l ls (Z.of_nat d) i self v
                   (nonblank_true l El) ltac:(lia) ltac:(lia) Ev).
        destruct (i <? Z.of_nat d)%Z eqn:Elt.
        -- apply Z.ltb_lt in Elt. rewrite Hb.
           destruct (list_set_length w (Z.to_nat i) v) as (w' & -> & Hw'); [lia|].
           apply (IH (i + 1)%Z _ w'); try reflexivity; try lia; try assumption.
        -- apply Z.ltb_ge in Elt.
           destruct (i =? Z.of_nat d)%Z eqn:Eeq.
           ++ apply (IH (i + 1)%Z _ w); try lia; try assumption.
           ++ cbv zeta. destruct (Rlt_dec v 0); [eexists; reflexivity|].
              destruct (Rgt_dec v 1); [eexists; reflexivity|].
              apply (IH (i + 1)%Z _ w); try lia; try assumption.
    + rewrite (load_loop_blank int_of_str float_of_str l ls _ i self (nonblank_false l El)).
      apply (IH i self w); assumption.
Qed.

(** X16.  A file whose first line declares [d >= 1] coefficients, [d] a
    size [numpy.zeros] allocates (here at most 1000000), and whose other
    lines hold fewer than [d + 2] numbers and nothing else makes [load]
    raise [LogRegError]. *)
Lemma load_too_few (self : Model) (file_name : string) (fs : filesystem)
    (contents hdr : string) (ls : list string) (d : nat) :
  fs file_name = Some contents ->
  Text.readlines contents = hdr :: ls ->
  declares int_of_str hdr d ->
  (Z.of_nat d <= 1000000)%Z ->
  Forall (is_number float_of_str) (data_lines ls) ->
  (length (data_lines ls) < d + 2)%nat ->
  fst (load int_of_str float_of_str self file_name fs) = Raise (LogRegError msg_cannot_load).
Proof.
  intros Hfs Hlines (p0 & p1 & p2 & Hne & Hsplit & H0 & H1 & Hint & Hd) _ Hnum Hcount.
  unfold load. rewrite Hfs, Hlines.
  rewrite (load_loop_header int_of_str float_of_str hdr ls (-1) 0 self p0 p1 p2 (Z.of_nat d));
    try assumption; try lia.
  rewrite Nat2Z.id.
  destruct (load_loop_too_few d ls Hd 0
              (mkModel (Some 0.0) (Some (repeat 0 d)) (Some 0.5)) (repeat 0 d)
              eq_refl (repeat_length _ _) ltac:(lia) Hnum ltac:(lia)) as (self' & ->).
  reflexivity.
Qed.

(** X17.  A file whose first line declares [d >= 1] coefficients and whose
    other lines hold more than [d + 2] data lines, the first [d + 2] of
    them numbers, makes [load] raise [LogRegError]. *)
Lemma load_too_many (self : Model) (file_name : string) (fs : filesystem)
    (contents hdr : string) (ls : list string) (d : nat) :
  fs file_name = Some contents ->
  Text.readlines contents = hdr :: ls ->
  declares int_of_str hdr d ->
  Forall (is_number float_of_str) (firstn (d + 2) (data_lines ls)) ->
  (d + 2 < length (data_lines ls))%nat ->
  fst (load int_of_str float_of_str self file_name fs) = Raise (LogRegError msg_cannot_load).
Proof.
  intros Hfs Hlines (p0 & p1 & p2 & Hne & Hsplit & H0 & H1 & Hint & Hd) Hnum Hcount.
  unfold load. rewrite Hfs, Hlines.
  rewrite (load_loop_header int_of_str float_of_str hdr ls (-1) 0 self p0 p1 p2 (Z.of_nat d));
    try assumption; try lia.
  rewrite Nat2Z.id.
  destruct (load_loop_too_many d ls Hd 0
              (mkModel (Some 0.0) (Some (repeat 0 d)) (Some 0.5)) (repeat 0 d)
              eq_refl (repeat_length _ _) ltac:(lia)) as (self' & ->); [ | lia | reflexivity].
  replace (Z.to_nat (Z.of_nat d + 2 - 0)) with (d + 2)%nat by lia. exact Hnum.
Qed.

End LineCount.

(** C9.  A file that declares three coefficients and holds a single data
    line, which is not a number: [load] leaves with the [ValueError] of
    [float], not with a [LogRegError]. *)
Theorem load_short_file_value_error :
  load Text.int_of_decimal Text.float_of_decimal __init__ "model.txt"
       (write_file (fun _ => None) "model.txt"
                   (Text.unlines ["Input size 3"; ""; "abc"]%string))
  = (Raise ValueError, mkModel (Some 0.0) (Some [0; 0; 0]) (Some 0.5)).
Proof. unfold load. rewrite write_file_read. reflexivity. Qed.

(** C10.  A file that declares one coefficient and holds four data lines,
    the first of which is not a number: [load] leaves with the
    [ValueError] of [float], not with a [LogRegError]. *)
Theorem load_long_file_value_error :
  load Text.int_of_decimal Text.float_of_decimal __init__ "model.txt"
       (write_file (fun _ => None) "model.txt"
                   (Text.unlines ["Input size 1"; ""; "abc"; "0.5"; "0.5"; "0.5"]%string))
  = (Raise ValueError, mkModel (Some 0.0) (Some [0]) (Some 0.5)).
Proof. unfold load. rewrite write_file_read. reflexivity. Qed.

(** * Further properties *)

(** ** The line search *)

(** With a tolerance that is not positive the loop condition never fails. *)
Lemma golden_loop_nonpositive_eps (L : R -> R) (eps : R) :
  eps <= 0 ->
  forall (fuel : nat) (lo hi lr1 lr2 : R),
    golden_loop fuel L eps lo hi lr1 lr2 = OutOfFuel.
Proof.
  intros Heps. induction fuel as [|fuel IH]; intros lo hi lr1 lr2; cbn [golden_loop].
  - destruct (Rge_dec (Rabs (lo - hi)) eps) as [_|Hc]; [reflexivity|].
    exfalso. apply Hc. pose proof (Rabs_pos (lo - hi)). lra.
  - destruct (Rge_dec (Rabs (lo - hi)) eps) as [_|Hc].
    + cbv zeta. destruct (Rle_dec _ _); apply IH.
    + exfalso. apply Hc. pose proof (Rabs_pos (lo - hi)). lra.
Qed.

(** X3.  For [lr_max <= 0] the loop of [__find_best_lr] never ends: the
    tolerance [0.00001 * lr_max] is not positive and the width of the
    bracket is never under it.  ([fit] rejects such an [lr_max] before it
    calls the search.) *)
Theorem find_best_lr_diverges
    (rows : list (list R)) (y : list R) (a : R) (w : list R)
    (gradient : R * list R) (lr_max : R) :
  lr_max <= 0 ->
  forall fuel, __find_best_lr fuel rows y a w gradient lr_max = OutOfFuel.
Proof.
  intros Hle fuel. unfold __find_best_lr, final_bracket. cbv zeta.
  rewrite golden_loop_nonpositive_eps; [reflexivity | lra].
Qed.

Lemma find_best_lr_diverges_witness :
  0 <= 0 /\
  forall fuel, __find_best_lr fuel [[1]] [1] 0 [0] (0, [0]) 0 = OutOfFuel.
Proof.
  assert (H : 0 <= 0) by lra.
  split; [exact H|].
  exact (find_best_lr_diverges [[1]] [1] 0 [0] (0, [0]) 0 H).
Defined.

(** ** Counting and calibrating *)

Lemma positives_negatives (y : list R) :
  (positives y + negatives y = length y)%nat.
Proof.
  unfold positives, negatives. induction y as [|t y IH]; simpl; [reflexivity|].
  destruct (is_positive t); simpl; lia.
Qed.

Lemma calc_quality_loop_total (y_target : list R) :
  forall (q : Quality) (y_real : list R),
    (length y_target <= length y_real)%nat ->
    exists q',
      calc_quality_loop q y_target y_real = Ok q' /\
      (tp q' + fn q' = tp q + fn q + positives y_target)%nat /\
      (tn q' + fp q' = tn q + fp q + negatives y_target)%nat.
Proof.
  induction y_target as [|t y IH]; intros q y_real Hlen.
  - exists q. cbn. repeat split; lia.
  - destruct y_real as [|r y_real]; [simpl in Hlen; lia|].
    simpl in Hlen. cbn [calc_quality_loop].
    destruct (IH (count_one q t r) y_real ltac:(lia)) as (q' & Hq & Hp & Hn).
    exists q'. split; [exact Hq|].
    unfold positives, negatives in *. cbn [filter].
    unfold count_one, is_positive in *.
    destruct (Rgt_dec t 0), (Rgt_dec r 0); cbn [tp tn fp fn negb length] in *; lia.
Qed.

Lemma calc_quality_loop_short (y_target : list R) :
  forall (q : Quality) (y_real : list R),
    (length y_real < length y_target)%nat ->
    calc_quality_loop q y_target y_real = Raise IndexError.
Proof.
  induction y_target as [|t y IH]; intros q y_real Hlen; [simpl in Hlen; lia|].
  destruct y_real as [|r y_real]; [reflexivity|].
  simpl in Hlen. cbn [calc_quality_loop]. apply IH. lia.
Qed.

(** X4.  [__calc_quality] raises [IndexError] exactly when the predictions
    are fewer than the targets.  Otherwise its four counters add up to the
    number of targets, [tp + fn] is the number of positive targets and
    [tn + fp] the number of the others, whatever the predictions. *)
Theorem calc_quality_totals (y_target y_real : list R) :
  (__calc_quality y_target y_real = Raise IndexError
   <-> (length y_real < length y_target)%nat) /\
  (forall q, __calc_quality y_target y_real = Ok q ->
     (tp q + fn q = positives y_target)%nat /\
     (tn q + fp q = negatives y_target)%nat /\
     (tp q + tn q + fp q + fn q = length y_target)%nat).
Proof.
  unfold __calc_quality.
  destruct (Nat.lt_ge_cases (length y_real) (length y_target)) as [Hlt|Hge].
  - rewrite (calc_quality_loop_short y_target _ y_real Hlt).
    split; [split; auto | intros q H; discriminate].
  - destruct (calc_quality_loop_total y_target (mkQuality 0 0 0 0) y_real Hge)
      as (q' & Hq & Hp & Hn).
    rewrite Hq. cbn [tp tn fp fn] in Hp, Hn. split.
    + split; [intros H; discriminate | intros H; lia].
    + intros q H. apply Ok_inj in H. subst q'.
      pose proof (positives_negatives y_target). repeat split; lia.
Qed.

Lemma degenerate_cases (y : list R) :
  ~ both_classes y -> (positives y = 0 \/ negatives y = 0)%nat.
Proof.
  intros H. destruct (positives y) eqn:Ep; [now left|].
  destruct (negatives y) eqn:En; [now right|].
  exfalso. apply H. split.
  - apply positives_Exists. lia.
  - apply negatives_Exists. lia.
Qed.

Lemma candidate_of_In (r : R) :
  In r candidates -> exists k, (k <= 100)%nat /\ r = INR k / 100.
Proof.
  intros Hin. destruct (In_nth _ _ 0 Hin) as (k & Hk & Hnth).
  rewrite candidates_length in Hk. exists k. split; [lia|].
  rewrite <- Hnth. apply candidates_nth. lia.
Qed.

Lemma candidate_range (k : nat) : (k <= 100)%nat -> 0 <= INR k / 100 <= 1.
Proof.
  intros Hk. pose proof (pos_INR k) as H0.
  assert (H1 : INR k <= INR 100) by (apply le_INR; exact Hk).
  change (INR 100) with (INR 100) in H1.
  replace (INR 100) with 100 in H1 by (simpl; ring).
  split.
  - apply Rmult_le_reg_r with 100; [lra|].
    replace (INR k / 100 * 100) with (INR k) by field. lra.
  - apply Rmult_le_reg_r with 100; [lra|].
    replace (INR k / 100 * 100) with (INR k) by field. lra.
Qed.

(** The scan answers the incumbent or one of the candidates. *)
Lemma best_th_loop_result (y p : list R) (ths : list R) :
  forall best_th min_dist r,
    best_th_loop ths y p best_th min_dist = Ok r -> r = best_th \/ In r ths.
Proof.
  induction ths as [|th ths IH]; intros best_th min_dist r H.
  - cbn in H. apply Ok_inj in H. now left.
  - rewrite best_th_loop_cons in H.
    destruct (roc_dist y p th) as [dist| |]; cbn [bind] in H; try discriminate.
    destruct (Rlt_dec dist min_dist).
    + destruct (IH _ _ _ H) as [-> | Hin]; [right; now left | right; now right].
    + destruct (IH _ _ _ H) as [-> | Hin]; [now left | right; now right].
Qed.

Lemma calc_best_th_candidate (y p : list R) (r : R) :
  __calc_best_th y p = Ok r -> exists k, (k <= 100)%nat /\ r = INR k / 100.
Proof.
  unfold __calc_best_th. intros H.
  destruct (best_th_loop_result y p candidates 0 1 r H) as [-> | Hin].
  - exists O. split; [lia | now rewrite candidate_zero].
  - now apply candidate_of_In.
Qed.

(** X5.  On predictions as many as the labels, [__calc_best_th] returns
    exactly when the labels hold both classes, and then one of the
    thresholds [k / 100], [0 <= k <= 100], which lies in [0, 1]; otherwise
    it raises [ZeroDivisionError].  The predictions need not be
    probabilities. *)
Theorem calc_best_th_defined (y p : list R) :
  length p = length y ->
  (both_classes y ->
   exists k, (k <= 100)%nat /\ __calc_best_th y p = Ok (INR k / 100)
             /\ 0 <= INR k / 100 <= 1) /\
  (~ both_classes y -> __calc_best_th y p = Raise ZeroDivisionError).
Proof.
  intros Hlen. split.
  - intros [Hp Hn]. apply positives_Exists in Hp. apply negatives_Exists in Hn.
    destruct (best_th_loop_spec y p Hlen Hp Hn candidates 0 1) as (r & Hr & _).
    destruct (calc_best_th_candidate y p r Hr) as (k & Hk & ->).
    exists k. split; [exact Hk|]. split; [exact Hr | now apply candidate_range].
  - intros Hdeg. apply calc_best_th_degenerate; [exact Hlen|].
    now apply degenerate_cases.
Qed.

Lemma calc_best_th_defined_witness :
  length [0.2; 0.8] = length [0; 1] /\
  (both_classes [0; 1] ->
   exists k, (k <= 100)%nat /\ __calc_best_th [0; 1] [0.2; 0.8] = Ok (INR k / 100)
             /\ 0 <= INR k / 100 <= 1) /\
  (~ both_classes [0; 1] -> __calc_best_th [0; 1] [0.2; 0.8] = Raise ZeroDivisionError).
Proof.
  split; [reflexivity|].
  exact (calc_best_th_defined [0; 1] [0.2; 0.8] eq_refl).
Defined.

(** ** Separable training sets *)







(** ** What [fit] raises and what it leaves *)

Lemma golden_loop_no_raise (L : R -> R) (eps : R) :
  forall (fuel : nat) (lo hi lr1 lr2 : R) (e : exn),
    golden_loop fuel L eps lo hi lr1 lr2 <> Raise e.
Proof.
  induction fuel as [|fuel IH]; intros lo hi lr1 lr2 e; cbn [golden_loop].
  - destruct (Rge_dec _ eps); discriminate.
  - destruct (Rge_dec _ eps); [|discriminate].
    cbv zeta. destruct (Rle_dec _ _); apply IH.
Qed.

Lemma find_best_lr_no_raise (fuel : nat) (rows : list (list R)) (y : list R)
    (a : R) (w : list R) (gradient : R * list R) (lr_max : R) (e : exn) :
  __find_best_lr fuel rows y a w gradient lr_max <> Raise e.
Proof.
  unfold __find_best_lr, final_bracket. cbv zeta.
  destruct (golden_loop _ _ _ _ _ _ _) as [br|e'|] eqn:E; cbn [bind]; try discriminate.
  now apply golden_loop_no_raise in E.
Qed.

Lemma fit_loop_no_raise
    (ncols : nat) (rows : list (list R)) (y : list R) (eps lr_max : R) (max_iters : Z)
    (lr_fuel : nat) :
  forall (fuel : nat) (a : R) (w : list R) (f_old : R) (it : Z) (out : list line) (e : exn),
    fit_loop fuel lr_fuel ncols rows y eps lr_max max_iters a w f_old it out <> Raise e.
Proof.
  induction fuel as [|fuel IH]; intros a w f_old it out e; [discriminate|].
  cbn [fit_loop]. cbv zeta.
  destruct (__find_best_lr lr_fuel rows y a w _ lr_max) as [lr|e'|] eqn:E;
    cbn [bind]; try discriminate.
  - destruct (Rlt_dec _ eps); [discriminate|].
    destruct (_ >=? max_iters)%Z; [discriminate | apply IH].
  - now apply find_best_lr_no_raise in E.
Qed.

Lemma calc_quality_loop_raises (y_target : list R) :
  forall q y_real e, calc_quality_loop q y_target y_real = Raise e -> e = IndexError.
Proof.
  induction y_target as [|t y IH]; intros q [|r y_real] e H; cbn in H;
    try discriminate.
  - now injection H as <-.
  - now apply IH in H.
Qed.

Lemma roc_dist_raises (y p : list R) (th : R) (e : exn) :
  roc_dist y p th = Raise e -> e = ZeroDivisionError \/ e = IndexError.
Proof.
  unfold roc_dist, __calc_quality.
  destruct (calc_quality_loop _ y (ge_mask p th)) as [q|e'|] eqn:E; cbn [bind];
    try discriminate.
  - unfold py_div. destruct (Req_dec_T _ 0); cbn [bind].
    + intros H. injection H as <-. now left.
    + destruct (Req_dec_T _ 0); cbn [bind]; [|discriminate].
      intros H. injection H as <-. now left.
  - intros H. injection H as <-. right. now apply calc_quality_loop_raises in E.
Qed.

Lemma best_th_loop_raises (y p : list R) (ths : list R) :
  forall best_th min_dist e,
    best_th_loop ths y p best_th min_dist = Raise e ->
    e = ZeroDivisionError \/ e = IndexError.
Proof.
  induction ths as [|th ths IH]; intros best_th min_dist e H; [discriminate|].
  rewrite best_th_loop_cons in H.
  destruct (roc_dist y p th) as [dist|e'|] eqn:E; cbn [bind] in H; try discriminate.
  - destruct (Rlt_dec dist min_dist); now apply IH in H.
  - injection H as <-. now apply roc_dist_raises in E.
Qed.

Lemma calc_best_th_raises (y p : list R) (e : exn) :
  __calc_best_th y p = Raise e -> e = ZeroDivisionError \/ e = IndexError.
Proof. unfold __calc_best_th. apply best_th_loop_raises. Qed.

(** X7.  A [LogRegError] raised by [fit] comes from the checks at its
    start: the message is one of the two of those checks, no attribute has
    been assigned and nothing has been printed.  Past the checks [fit]
    raises no [LogRegError]. *)
Theorem fit_logreg_error_is_validation (fuel : nat) (rand : nat -> R) (self : Model)
    (X y : pyvalue) (eps lr_max : R) (max_iters : Z)
    (m : string) (self' : Model) (out : list line) :
  fit fuel rand self X y eps lr_max max_iters = (Raise (LogRegError m), self', out) ->
  self' = self /\ out = [] /\
  (m = msg_train_data_wrong \/ m = msg_train_params_wrong).
Proof.
  unfold fit.
  destruct X as [|xv|ncols rows| |]; try (intros H; injection H as <- <- <-; auto).
  destruct y as [|yv|ycols yrows| |]; try (intros H; injection H as <- <- <-; auto).
  destruct (negb (length rows =? length yv)%nat);
    [intros H; injection H as <- <- <-; auto|].
  destruct (Rle_dec eps 0); [intros H; injection H as <- <- <-; auto|].
  destruct (Rle_dec lr_max 0); [intros H; injection H as <- <- <-; auto|].
  destruct (max_iters <? 1)%Z; [intros H; injection H as <- <- <-; auto|].
  pose proof (random_init_length rand ncols) as Hw0.
  destruct (random_init rand ncols) as [a0 w0]. cbn [snd] in Hw0.
  destruct (fit_loop _ _ _ _ _ _ _ _ _ _ _ _ _) as [[[[a w] it] out1]|e|] eqn:Eloop.
  - pose proof (fit_loop_length _ _ _ _ _ _ _ _ _ _ _ _ _ _ _ _ _ Hw0 Eloop) as Hw.
    unfold transform. cbn [__a __b]. rewrite Hw, Nat.eqb_refl. cbn [bind].
    destruct (__calc_best_th yv (probabilities rows a w)) as [th|e|] eqn:Eth;
      intros H; try discriminate.
    injection H as He _ _. subst e.
    apply calc_best_th_raises in Eth. destruct Eth; discriminate.
  - now apply fit_loop_no_raise in Eloop.
  - discriminate.
Qed.

Lemma fit_logreg_error_is_validation_witness :
  fit 0 (fun _ => 0.5) __init__ PyNone PyNone 0.001 1 1000
    = (Raise (LogRegError msg_train_data_wrong), __init__, []) /\
  (__init__ = __init__ /\ @nil line = [] /\
   (msg_train_data_wrong = msg_train_data_wrong
    \/ msg_train_data_wrong = msg_train_params_wrong)).
Proof.
  split; [reflexivity|].
  exact (fit_logreg_error_is_validation 0 (fun _ => 0.5) __init__ PyNone PyNone 0.001 1 1000
           msg_train_data_wrong __init__ [] eq_refl).
Defined.

(** The updates of a run of the loop that ends: one progress line each, at
    least one and at most [max (1, max_iters - iterations_number)]. *)
Lemma fit_loop_updates
    (ncols : nat) (rows : list (list R)) (y : list R) (eps lr_max : R) (max_iters : Z)
    (lr_fuel : nat) :
  forall (fuel : nat) (a : R) (w : list R) (f_old : R) (it : Z) (out : list line)
         (a' : R) (w' : list R) (it' : Z) (out' : list line),
    fit_loop fuel lr_fuel ncols rows y eps lr_max max_iters a w f_old it out
      = Ok (a', w', it', out') ->
    exists fs,
      out' = (out ++ progress_from it fs)%list /\
      (1 <= Z.of_nat (length fs) <= Z.max 1 (max_iters - it))%Z.
Proof.
  induction fuel as [|fuel IH]; intros a w f_old it out a' w' it' out' H; [discriminate|].
  cbn [fit_loop] in H. cbv zeta in H.
  destruct (__find_best_lr lr_fuel rows y a w _ lr_max) as [lr|e|];
    cbn [bind] in H; try discriminate.
  set (g := __calculate_gradient ncols rows y a w) in H.
  set (a1 := a + lr * fst g) in H. set (w1 := axpy lr w (snd g)) in H.
  set (f_new := __calculate_log_likelihood rows y a1 w1) in H.
  destruct (Rlt_dec (f_new - f_old) eps) as [Hc|Hc].
  - injection H as _ _ _ <-. exists [f_new]. cbn [progress_from length]. split; [reflexivity | lia].
  - destruct (it + 1 >=? max_iters)%Z eqn:Hm.
    + injection H as _ _ _ <-. exists [f_new]. cbn [progress_from length].
      split; [reflexivity | lia].
    + rewrite Z.geb_leb in Hm. apply Z.leb_gt in Hm.
      destruct (IH _ _ _ _ _ _ _ _ _ H) as (fs & -> & Hn).
      exists (f_new :: fs). cbn [progress_from length].
      split; [now rewrite <- app_assoc | lia].
Qed.

(** A run of [fit] on well-shaped data with admissible parameters that
    ends has made its updates, assigned the free term and the coefficients
    and called the calibration on the probabilities of the training rows. *)
Lemma fit_ends (fuel : nat) (rand : nat -> R) (self : Model)
    (ncols : nat) (rows : list (list R)) (yv : list R) (eps lr_max : R) (max_iters : Z) :
  length rows = length yv ->
  0 < eps -> 0 < lr_max -> (1 <= max_iters)%Z ->
  fst (fst (fit fuel rand self (NdArray2 ncols rows) (NdArray1 yv) eps lr_max max_iters))
    <> OutOfFuel ->
  exists a w it f0 fs,
    length w = ncols /\
    (1 <= Z.of_nat (length fs) <= Z.max 1 (max_iters - 1))%Z /\
    fit fuel rand self (NdArray2 ncols rows) (NdArray1 yv) eps lr_max max_iters =
      let out := (Progress 0 f0 :: progress_from 1 fs ++ [stop_line it max_iters])%list in
      match __calc_best_th yv (probabilities rows a w) with
      | Ok th => (Ok tt, mkModel (Some a) (Some w) (Some th), out)
      | Raise e => (Raise e, mkModel (Some a) (Some w) (__th self), out)
      | OutOfFuel => (OutOfFuel, mkModel (Some a) (Some w) (__th self), out)
      end.
Proof.
  intros Hshape Heps Hlr Hmax. unfold fit. rewrite Hshape, Nat.eqb_refl. cbn [negb].
  destruct (Rle_dec eps 0) as [H|_]; [lra|].
  destruct (Rle_dec lr_max 0) as [H|_]; [lra|].
  destruct (max_iters <? 1)%Z eqn:Hm; [apply Z.ltb_lt in Hm; lia|].
  pose proof (random_init_length rand ncols) as Hw0.
  destruct (random_init rand ncols) as [a0 w0]. cbn [snd] in Hw0.
  set (f0 := __calculate_log_likelihood rows yv a0 w0).
  destruct (fit_loop fuel fuel ncols rows yv eps lr_max max_iters a0 w0 f0 1 [Progress 0 f0])
    as [[[[a w] it] out1]|e|] eqn:Eloop; cbn [fst]; intros Hend.
  - pose proof (fit_loop_length _ _ _ _ _ _ _ _ _ _ _ _ _ _ _ _ _ Hw0 Eloop) as Hw.
    destruct (fit_loop_updates ncols rows yv eps lr_max max_iters fuel fuel a0 w0 f0 1
                [Progress 0 f0] a w it out1 Eloop) as (fs & -> & Hn).
    exists a, w, it, f0, fs. split; [exact Hw|]. split; [exact Hn|].
    unfold transform. cbn [__a __b]. rewrite Hw, Nat.eqb_refl. cbn [bind].
    cbv zeta. fold (stop_line it max_iters).
    destruct (__calc_best_th yv (probabilities rows a w)); reflexivity.
  - now apply fit_loop_no_raise in Eloop.
  - now contradiction Hend.
Qed.

Lemma both_classes_dec (y : list R) : both_classes y \/ ~ both_classes y.
Proof.
  destruct (positives y) eqn:Ep.
  - right. intros [H _]. apply positives_Exists in H. lia.
  - destruct (negatives y) eqn:En.
    + right. intros [_ H]. apply negatives_Exists in H. lia.
    + left. split; [apply positives_Exists | apply negatives_Exists]; lia.
Qed.

(** With both classes among the labels the calibration returns. *)
Lemma calc_best_th_returns (y p : list R) :
  length p = length y -> both_classes y -> exists th, __calc_best_th y p = Ok th.
Proof.
  intros Hlen [Hp Hn]. apply positives_Exists in Hp. apply negatives_Exists in Hn.
  destruct (best_th_loop_spec y p Hlen Hp Hn candidates 0 1) as (th & Hr & _).
  exists th. unfold __calc_best_th. exact Hr.
Qed.

(** X8.  A run of [fit] on well-shaped data with admissible parameters
    that ends returns normally exactly when the labels hold both classes,
    and raises [ZeroDivisionError] exactly when they do not. *)
Theorem fit_succeeds_iff (fuel : nat) (rand : nat -> R) (self : Model)
    (ncols : nat) (rows : list (list R)) (yv : list R) (eps lr_max : R) (max_iters : Z) :
  length rows = length yv ->
  0 < eps -> 0 < lr_max -> (1 <= max_iters)%Z ->
  fst (fst (fit fuel rand self (NdArray2 ncols rows) (NdArray1 yv) eps lr_max max_iters))
    <> OutOfFuel ->
  (fst (fst (fit fuel rand self (NdArray2 ncols rows) (NdArray1 yv) eps lr_max max_iters))
     = Ok tt <-> both_classes yv) /\
  (fst (fst (fit fuel rand self (NdArray2 ncols rows) (NdArray1 yv) eps lr_max max_iters))
     = Raise ZeroDivisionError <-> ~ both_classes yv).
Proof.
  intros Hshape Heps Hlr Hmax Hend.
  destruct (fit_ends fuel rand self ncols rows yv eps lr_max max_iters
              Hshape Heps Hlr Hmax Hend)
    as (a & w & it & f0 & fs & Hw & _ & Hfit).
  rewrite Hfit. cbv zeta.
  assert (Hlen : length (probabilities rows a w) = length yv)
    by (now rewrite probabilities_length).
  destruct (both_classes_dec yv) as [Hb|Hb].
  - destruct (calc_best_th_returns _ _ Hlen Hb) as (th & ->). cbn [fst].
    split; split; intros H; try discriminate; try reflexivity.
    + exact Hb.
    + contradiction.
  - rewrite (calc_best_th_degenerate _ _ Hlen (degenerate_cases yv Hb)). cbn [fst].
    split; split; intros H; try discriminate; try reflexivity;
      try contradiction; exact Hb.
Qed.

Lemma fit_succeeds_iff_witness :
  length [[1]; [-1]] = length [1; 0] /\
  0 < 0.001 /\ 0 < 1 /\ (1 <= 1000)%Z /\
  fst (fst (fit 1000 (fun _ => 0.5) __init__ (NdArray2 1 [[1]; [-1]]) (NdArray1 [1; 0])
              0.001 1 1000)) <> OutOfFuel /\
  (fst (fst (fit 1000 (fun _ => 0.5) __init__ (NdArray2 1 [[1]; [-1]]) (NdArray1 [1; 0])
               0.001 1 1000))
     = Ok tt <-> both_classes [1; 0]) /\
  (fst (fst (fit 1000 (fun _ => 0.5) __init__ (NdArray2 1 [[1]; [-1]]) (NdArray1 [1; 0])
               0.001 1 1000))
     = Raise ZeroDivisionError <-> ~ both_classes [1; 0]).
Proof.
  assert (H1 : length [[1]; [-1]] = length [1; 0]) by reflexivity.
  assert (H2 : 0 < 0.001) by lra.
  assert (H3 : 0 < 1) by lra.
  assert (H4 : (1 <= 1000)%Z) by lia.
  assert (H5 : fst (fst (fit 1000 (fun _ => 0.5) __init__ (NdArray2 1 [[1]; [-1]])
                           (NdArray1 [1; 0]) 0.001 1 1000)) <> OutOfFuel).
  { destruct (fit_calibrates 1000 (fun _ => 0.5) __init__ 1 [[1]; [-1]] [1; 0] 0.001 1 1000)
      as (a & w & th & out & Hfit & _); try reflexivity; try lra; try lia.
    - left; lra.
    - right; left; lra.
    - rewrite Hfit. discriminate. }
  repeat (split; [assumption|]).
  exact (fit_succeeds_iff 1000 (fun _ => 0.5) __init__ 1 [[1]; [-1]] [1; 0] 0.001 1 1000
           H1 H2 H3 H4 H5).
Defined.

(** X9.  Whenever [fit] returns normally its arguments had passed the
    checks, the labels held both classes, and the object is left usable:
    all three attributes are defined, the coefficients are as many as the
    columns of the training matrix, and the threshold is one of
    [0.00, 0.01, ..., 1.00]. *)
Theorem fit_ok_usable (fuel : nat) (rand : nat -> R) (self : Model)
    (X y : pyvalue) (eps lr_max : R) (max_iters : Z) (self' : Model) (out : list line) :
  fit fuel rand self X y eps lr_max max_iters = (Ok tt, self', out) ->
  exists ncols rows yv a w k,
    X = NdArray2 ncols rows /\ y = NdArray1 yv /\ length rows = length yv /\
    0 < eps /\ 0 < lr_max /\ (1 <= max_iters)%Z /\
    both_classes yv /\
    self' = mkModel (Some a) (Some w) (Some (INR k / 100)) /\
    length w = ncols /\ (k <= 100)%nat /\
    usable self' ncols.
Proof.
  unfold fit.
  destruct X as [|xv|ncols rows| |]; try discriminate.
  destruct y as [|yv|ycols yrows| |]; try discriminate.
  destruct (length rows =? length yv)%nat eqn:Eshape; cbn [negb]; [|discriminate].
  apply Nat.eqb_eq in Eshape.
  destruct (Rle_dec eps 0) as [|Heps]; [discriminate|].
  destruct (Rle_dec lr_max 0) as [|Hlr]; [discriminate|].
  destruct (max_iters <? 1)%Z eqn:Emax; [discriminate|]. apply Z.ltb_ge in Emax.
  pose proof (random_init_length rand ncols) as Hw0.
  destruct (random_init rand ncols) as [a0 w0]. cbn [snd] in Hw0.
  destruct (fit_loop _ _ _ _ _ _ _ _ _ _ _ _ _) as [[[[a w] it] out1]|e|] eqn:Eloop;
    try discriminate.
  pose proof (fit_loop_length _ _ _ _ _ _ _ _ _ _ _ _ _ _ _ _ _ Hw0 Eloop) as Hw.
  unfold transform. cbn [__a __b]. rewrite Hw, Nat.eqb_refl. cbn [bind].
  destruct (__calc_best_th yv (probabilities rows a w)) as [th|e|] eqn:Eth;
    intros H; try discriminate.
  injection H as <- _.
  destruct (calc_best_th_candidate _ _ _ Eth) as (k & Hk & ->).
  assert (Hlen : length (probabilities rows a w) = length yv)
    by (now rewrite probabilities_length).
  assert (Hboth : both_classes yv).
  { destruct (both_classes_dec yv) as [Hb|Hb]; [exact Hb|].
    rewrite (calc_best_th_degenerate _ _ Hlen (degenerate_cases yv Hb)) in Eth.
    discriminate. }
  exists ncols, rows, yv, a, w, k.
  repeat (split; [reflexivity || assumption || lra|]).
  exists a, w, (INR k / 100). split; [reflexivity|]. split; [exact Hw|].
  now apply candidate_range.
Qed.

Lemma fit_ok_usable_witness :
  exists self' out,
    fit 1000 (fun _ => 0.5) __init__ (NdArray2 1 [[1]; [-1]]) (NdArray1 [1; 0]) 0.001 1 1000
      = (Ok tt, self', out) /\
    exists ncols rows yv a w k,
      NdArray2 1 [[1]; [-1]] = NdArray2 ncols rows /\ NdArray1 [1; 0] = NdArray1 yv /\
      length rows = length yv /\
      0 < 0.001 /\ 0 < 1 /\ (1 <= 1000)%Z /\
      both_classes yv /\
      self' = mkModel (Some a) (Some w) (Some (INR k / 100)) /\
      length w = ncols /\ (k <= 100)%nat /\
      usable self' ncols.
Proof.
  destruct (fit_calibrates 1000 (fun _ => 0.5) __init__ 1 [[1]; [-1]] [1; 0] 0.001 1 1000)
    as (a & w & th & out & Hfit & _); try reflexivity; try lra; try lia.
  - left; lra.
  - right; left; lra.
  - exists (mkModel (Some a) (Some w) (Some th)), out. split; [exact Hfit|].
    exact (fit_ok_usable 1000 (fun _ => 0.5) __init__ (NdArray2 1 [[1]; [-1]])
             (NdArray1 [1; 0]) 0.001 1 1000 _ out Hfit).
Defined.

(** X10.  A run of [fit] on well-shaped data with admissible parameters
    that ends has made at least one update and at most
    [max (1, max_iters - 1)]: the counter starts at 1 and is compared with
    [max_iters] after it is increased, so [max_iters = 1] and
    [max_iters = 2] both allow a single update. *)
Theorem fit_update_bound (fuel : nat) (rand : nat -> R) (self : Model)
    (ncols : nat) (rows : list (list R)) (yv : list R) (eps lr_max : R) (max_iters : Z) :
  length rows = length yv ->
  0 < eps -> 0 < lr_max -> (1 <= max_iters)%Z ->
  fst (fst (fit fuel rand self (NdArray2 ncols rows) (NdArray1 yv) eps lr_max max_iters))
    <> OutOfFuel ->
  exists f0 fs it,
    snd (fit fuel rand self (NdArray2 ncols rows) (NdArray1 yv) eps lr_max max_iters)
      = (Progress 0 f0 :: progress_from 1 fs ++ [stop_line it max_iters])%list /\
    (1 <= Z.of_nat (length fs) <= Z.max 1 (max_iters - 1))%Z.
Proof.
  intros Hshape Heps Hlr Hmax Hend.
  destruct (fit_ends fuel rand self ncols rows yv eps lr_max max_iters
              Hshape Heps Hlr Hmax Hend)
    as (a & w & it & f0 & fs & _ & Hn & Hfit).
  exists f0, fs, it. rewrite Hfit. cbv zeta. split; [|exact Hn].
  destruct (__calc_best_th yv (probabilities rows a w)); reflexivity.
Qed.

Lemma fit_update_bound_witness :
  length [[1]; [-1]] = length [1; 0] /\
  0 < 0.001 /\ 0 < 1 /\ (1 <= 2)%Z /\
  fst (fst (fit 24 (fun _ => 0.5) __init__ (NdArray2 1 [[1]; [-1]]) (NdArray1 [1; 0])
              0.001 1 2)) <> OutOfFuel /\
  exists f0 fs it,
    snd (fit 24 (fun _ => 0.5) __init__ (NdArray2 1 [[1]; [-1]]) (NdArray1 [1; 0]) 0.001 1 2)
      = (Progress 0 f0 :: progress_from 1 fs ++ [stop_line it 2])%list /\
    (1 <= Z.of_nat (length fs) <= Z.max 1 (2 - 1))%Z.
Proof.
  assert (H1 : length [[1]; [-1]] = length [1; 0]) by reflexivity.
  assert (H2 : 0 < 0.001) by lra.
  assert (H3 : 0 < 1) by lra.
  assert (H4 : (1 <= 2)%Z) by lia.
  assert (H5 : fst (fst (fit 24 (fun _ => 0.5) __init__ (NdArray2 1 [[1]; [-1]])
                           (NdArray1 [1; 0]) 0.001 1 2)) <> OutOfFuel).
  { destruct (fit_calibrates 24 (fun _ => 0.5) __init__ 1 [[1]; [-1]] [1; 0] 0.001 1 2)
      as (a & w & th & out & Hfit & _); try reflexivity; try lra; try lia.
    - left; lra.
    - right; left; lra.
    - rewrite Hfit. discriminate. }
  repeat (split; [assumption|]).
  exact (fit_update_bound 24 (fun _ => 0.5) __init__ 1 [[1]; [-1]] [1; 0] 0.001 1 2
           H1 H2 H3 H4 H5).
Defined.

(** X11.  Whenever [fit] raises [ZeroDivisionError], its arguments had
    passed the checks and the labels lack a class; the free term and the
    coefficients have been replaced, the coefficients being as many as the
    columns of the new training matrix, and the threshold has not been
    assigned: an object fitted before keeps its old threshold beside the
    new coefficients. *)
Theorem fit_failed_refit (fuel : nat) (rand : nat -> R) (self : Model)
    (X y : pyvalue) (eps lr_max : R) (max_iters : Z) (self' : Model) (out : list line) :
  fit fuel rand self X y eps lr_max max_iters = (Raise ZeroDivisionError, self', out) ->
  exists ncols rows yv a w,
    X = NdArray2 ncols rows /\ y = NdArray1 yv /\ length rows = length yv /\
    ~ both_classes yv /\
    self' = mkModel (Some a) (Some w) (__th self) /\
    length w = ncols /\ out <> [].
Proof.
  unfold fit.
  destruct X as [|xv|ncols rows| |]; try discriminate.
  destruct y as [|yv|ycols yrows| |]; try discriminate.
  destruct (length rows =? length yv)%nat eqn:Eshape; cbn [negb]; [|discriminate].
  apply Nat.eqb_eq in Eshape.
  destruct (Rle_dec eps 0) as [|Heps]; [discriminate|].
  destruct (Rle_dec lr_max 0) as [|Hlr]; [discriminate|].
  destruct (max_iters <? 1)%Z eqn:Emax; [discriminate|].
  pose proof (random_init_length rand ncols) as Hw0.
  destruct (random_init rand ncols) as [a0 w0]. cbn [snd] in Hw0.
  destruct (fit_loop _ _ _ _ _ _ _ _ _ _ _ _ _) as [[[[a w] it] out1]|e|] eqn:Eloop;
    try discriminate.
  - pose proof (fit_loop_length _ _ _ _ _ _ _ _ _ _ _ _ _ _ _ _ _ Hw0 Eloop) as Hw.
    unfold transform. cbn [__a __b]. rewrite Hw, Nat.eqb_refl. cbn [bind].
    destruct (__calc_best_th yv (probabilities rows a w)) as [th|e|] eqn:Eth;
      intros H; try discriminate.
    injection H as _ <- <-.
    assert (Hlen : length (probabilities rows a w) = length yv)
      by (now rewrite probabilities_length).
    exists ncols, rows, yv, a, w.
    split; [reflexivity|]. split; [reflexivity|]. split; [exact Eshape|].
    split.
    { intros Hb. destruct (calc_best_th_returns _ _ Hlen Hb) as (th & Hr).
      rewrite Hr in Eth. discriminate. }
    split; [reflexivity|]. split; [exact Hw|].
    intros Hnil. destruct out1; discriminate.
  - intros H. injection H as He _ _. subst e. now apply fit_loop_no_raise in Eloop.
Qed.

Lemma fit_failed_refit_witness :
  exists self' out,
    fit 1000 (fun _ => 0.5) (mkModel (Some 0) (Some [1]) (Some 0.5))
        (NdArray2 2 [[1; 2]]) (NdArray1 [1]) 0.001 1 1000
      = (Raise ZeroDivisionError, self', out) /\
    exists ncols rows yv a w,
      NdArray2 2 [[1; 2]] = NdArray2 ncols rows /\ NdArray1 [1] = NdArray1 yv /\
      length rows = length yv /\
      ~ both_classes yv /\
      self' = mkModel (Some a) (Some w) (__th (mkModel (Some 0) (Some [1]) (Some 0.5))) /\
      length w = ncols /\ out <> [].
Proof.
  destruct (fit_degenerate 1000 (fun _ => 0.5) (mkModel (Some 0) (Some [1]) (Some 0.5))
              2 [[1; 2]] [1] 0.001 1 1000)
    as (a & w & out & Hfit); try reflexivity; try lra; try lia.
  - apply degenerate_cases. intros [_ H].
    inversion H as [x l Hx|x l Hx]; subst; [lra | inversion Hx].
  - exists (mkModel (Some a) (Some w) (__th (mkModel (Some 0) (Some [1]) (Some 0.5)))), out.
    split; [exact Hfit|].
    exact (fit_failed_refit 1000 (fun _ => 0.5) (mkModel (Some 0) (Some [1]) (Some 0.5))
             (NdArray2 2 [[1; 2]]) (NdArray1 [1]) 0.001 1 1000 _ out Hfit).
Defined.

(** ** What [load] accepts *)

Section LoadAccepts.

Variable int_of_str : string -> option Z.
Variable float_of_str : string -> option R.


End LoadAccepts.




(** ** What [load] reads *)

Section LoadReads.

Variable int_of_str : string -> option Z.
Variable float_of_str : string -> option R.

(** Before the header the loop does not look at the object: two objects
    give the same result, and the same attributes when it is normal. *)
Lemma load_loop_prior_state (lines : list string) (self1 self2 : Model) :
  fst (load_loop int_of_str float_of_str lines (-1) 0 self1)
    = fst (load_loop int_of_str float_of_str lines (-1) 0 self2) /\
  (fst (load_loop int_of_str float_of_str lines (-1) 0 self1) = Ok tt ->
   snd (load_loop int_of_str float_of_str lines (-1) 0 self1)
     = snd (load_loop int_of_str float_of_str lines (-1) 0 self2)).
Proof.
  induction lines as [|l ls IH].
  - cbn. split; [reflexivity | discriminate].
  - cbn [load_loop]. cbv zeta.
    destruct (0 <? String.length (Text.strip l))%nat; [|exact IH].
    change (-1 <=? 0)%Z with true. cbv iota.
    destruct (Text.split (Text.strip l)) as [|p0 [|p1 [|p2 [|p3 ps]]]];
      try (cbn [fst snd]; split; [reflexivity | discriminate]).
    destruct (_ || _); [cbn [fst snd]; split; [reflexivity | discriminate]|].
    destruct (int_of_str p2) as [d|]; [|cbn [fst snd]; split; [reflexivity | discriminate]].
    destruct (d <=? 0)%Z; [cbn [fst snd]; split; [reflexivity | discriminate]|].
    split; reflexivity.
Qed.

(** A line is read through its stripped text only. *)
Lemma load_loop_cons_strip (l l' : string) (ls ls' : list string) :
  Text.strip l = Text.strip l' ->
  (forall n i self,
     load_loop int_of_str float_of_str ls n i self
     = load_loop int_of_str float_of_str ls' n i self) ->
  forall n i self,
    load_loop int_of_str float_of_str (l :: ls) n i self
    = load_loop int_of_str float_of_str (l' :: ls') n i self.
Proof.
  intros Hs Htail n i self. cbn [load_loop]. cbv zeta. rewrite Hs.
  destruct (0 <? String.length (Text.strip l'))%nat; [|apply Htail].
  destruct (n <=? 0)%Z.
  - destruct (Text.split (Text.strip l')) as [|p0 [|p1 [|p2 [|p3 ps]]]]; try reflexivity.
    destruct (_ || _); [reflexivity|].
    destruct (int_of_str p2) as [d|]; [|reflexivity].
    destruct (d <=? 0)%Z; [reflexivity | apply Htail].
  - destruct (i >? n + 1)%Z; [reflexivity|].
    destruct (float_of_str (Text.strip l')) as [v|]; [|reflexivity].
    destruct (i <? n)%Z.
    + destruct (__b self) as [w|]; [|reflexivity].
      destruct (list_set w (Z.to_nat i) v); try reflexivity. apply Htail.
    + destruct (i =? n)%Z; [apply Htail|].
      destruct (Rlt_dec v 0); [reflexivity|].
      destruct (Rgt_dec v 1); [reflexivity | apply Htail].
Qed.

Lemma load_loop_all_blank (ls : list string) :
  data_lines ls = [] ->
  forall n i self,
    load_loop int_of_str float_of_str ls n i self
    = load_loop int_of_str float_of_str [] n i self.
Proof.
  induction ls as [|l ls IH]; intros H n i self; [reflexivity|].
  unfold data_lines in H. cbn [filter] in H.
  destruct (nonblank l) eqn:El; [discriminate|].
  rewrite (load_loop_blank int_of_str float_of_str l ls n i self (nonblank_false l El)).
  now apply IH.
Qed.

Lemma load_loop_data_lines (ls : list string) :
  forall ls',
    data_lines ls = data_lines ls' ->
    forall n i self,
      load_loop int_of_str float_of_str ls n i self
      = load_loop int_of_str float_of_str ls' n i self.
Proof.
  induction ls as [|l ls IH]; intros ls' H n i self.
  - symmetry. apply load_loop_all_blank. now rewrite <- H.
  - unfold data_lines in H. cbn [filter] in H.
    destruct (nonblank l) eqn:El.
    + cbn [map] in H. fold (data_lines ls) in H.
      revert n i self. induction ls' as [|l' ls' IH']; intros n i self;
        [discriminate|].
      unfold data_lines in H. cbn [filter] in H.
      destruct (nonblank l') eqn:El'.
      * cbn [map] in H. fold (data_lines ls') in H. injection H as Hs Ht.
        apply load_loop_cons_strip; [exact Hs|]. intros n' i' self'. now apply IH.
      * rewrite (load_loop_blank int_of_str float_of_str l' ls' n i self
                   (nonblank_false l' El')).
        apply IH'. exact H.
    + rewrite (load_loop_blank int_of_str float_of_str l ls n i self (nonblank_false l El)).
      apply IH. exact H.
Qed.

End LoadReads.

(** X13.  [load] does not look at the attributes the object had: on two
    objects it gives the same result, and when it returns normally it
    leaves the same attributes. *)
Theorem load_ignores_prior_state
    (int_of_str : string -> option Z) (float_of_str : string -> option R)
    (self1 self2 : Model) (file_name : string) (fs : filesystem) :
  fst (load int_of_str float_of_str self1 file_name fs)
    = fst (load int_of_str float_of_str self2 file_name fs) /\
  (fst (load int_of_str float_of_str self1 file_name fs) = Ok tt ->
   snd (load int_of_str float_of_str self1 file_name fs)
     = snd (load int_of_str float_of_str self2 file_name fs)).
Proof.
  unfold load. destruct (fs file_name) as [contents|].
  - apply load_loop_prior_state.
  - cbn. split; [reflexivity | discriminate].
Qed.

(** X14.  [load] reads a file through its lines that are not blank, each
    stripped of the white space around it: two files with the same such
    lines give the same result and the same attributes, so blank lines
    and padding carry no meaning. *)
Theorem load_reads_stripped_lines
    (int_of_str : string -> option Z) (float_of_str : string -> option R)
    (self : Model) (file_name file_name' : string) (fs fs' : filesystem)
    (contents contents' : string) :
  fs file_name = Some contents ->
  fs' file_name' = Some contents' ->
  data_lines (Text.readlines contents) = data_lines (Text.readlines contents') ->
  load int_of_str float_of_str self file_name fs
  = load int_of_str float_of_str self file_name' fs'.
Proof.
  intros H1 H2 Hd. unfold load. rewrite H1, H2. now apply load_loop_data_lines.
Qed.

Lemma load_reads_stripped_lines_witness :
  write_file (fun _ => None) "a.txt" (Text.unlines ["Input size 1"; ""; "0.5"]%string)
             "a.txt"%string
    = Some (Text.unlines ["Input size 1"; ""; "0.5"]%string) /\
  write_file (fun _ => None) "b.txt" (Text.unlines ["  Input size 1"; "0.5 "]%string)
             "b.txt"%string
    = Some (Text.unlines ["  Input size 1"; "0.5 "]%string) /\
  data_lines (Text.readlines (Text.unlines ["Input size 1"; ""; "0.5"]%string))
    = data_lines (Text.readlines (Text.unlines ["  Input size 1"; "0.5 "]%string)) /\
  load Text.int_of_decimal Text.float_of_decimal __init__ "a.txt"
       (write_file (fun _ => None) "a.txt" (Text.unlines ["Input size 1"; ""; "0.5"]%string))
  = load Text.int_of_decimal Text.float_of_decimal __init__ "b.txt"
         (write_file (fun _ => None) "b.txt" (Text.unlines ["  Input size 1"; "0.5 "]%string)).
Proof.
  split; [reflexivity|]. split; [reflexivity|]. split; [reflexivity|].
  exact (load_reads_stripped_lines Text.int_of_decimal Text.float_of_decimal __init__
           "a.txt"%string "b.txt"%string
           (write_file (fun _ => None) "a.txt"
                       (Text.unlines ["Input size 1"; ""; "0.5"]%string))
           (write_file (fun _ => None) "b.txt"
                       (Text.unlines ["  Input size 1"; "0.5 "]%string))
           (Text.unlines ["Input size 1"; ""; "0.5"]%string)
           (Text.unlines ["  Input size 1"; "0.5 "]%string)
           eq_refl eq_refl eq_refl).
Defined.

(** ** Files too short and too long *)

Lemma half_is_number : is_number Text.float_of_decimal "0.5".
Proof. unfold is_number. rewrite (proj2 half_round_trips). discriminate. Qed.

Lemma declares_decimal (s : string) (d : nat) :
  (0 < d)%nat ->
  Text.strip s = ("Input size " ++ Text.str_of_nat d)%string ->
  Text.int_of_decimal (Text.str_of_nat d) = Some (Z.of_nat d) ->
  declares Text.int_of_decimal s d.
Proof.
  intros Hd Hs Hint. exists "Input"%string, "size"%string, (Text.str_of_nat d).
  rewrite Hs. fold (header d).
  split; [apply header_nonempty|]. split; [now apply split_header|].
  repeat split; assumption.
Qed.

Lemma load_all_or_none_witness :
  all_or_none __init__ /\
  all_or_none
    (snd (load Text.int_of_decimal Text.float_of_decimal __init__ "model.txt"
               (write_file (fun _ => None) "model.txt"
                           (Text.unlines ["Input size 3"; ""; "abc"]%string)))).
Proof.
  assert (H : all_or_none __init__) by (left; repeat split; reflexivity).
  split; [exact H|].
  exact (load_all_or_none Text.int_of_decimal Text.float_of_decimal __init__
           "model.txt"%string _ H).
Defined.

Lemma load_too_few_witness :
  write_file (fun _ => None) "model.txt" (Text.unlines ["Input size 3"; "0.5"]%string)
             "model.txt"%string
    = Some (Text.unlines ["Input size 3"; "0.5"]%string) /\
  Text.readlines (Text.unlines ["Input size 3"; "0.5"]%string)
    = Text.unlines ["Input size 3"]%string :: [Text.unlines ["0.5"]%string] /\
  declares Text.int_of_decimal (Text.unlines ["Input size 3"]%string) 3 /\
  (Z.of_nat 3 <= 1000000)%Z /\
  Forall (is_number Text.float_of_decimal) (data_lines [Text.unlines ["0.5"]%string]) /\
  (length (data_lines [Text.unlines ["0.5"]%string]) < 3 + 2)%nat /\
  fst (load Text.int_of_decimal Text.float_of_decimal __init__ "model.txt"
            (write_file (fun _ => None) "model.txt"
                        (Text.unlines ["Input size 3"; "0.5"]%string)))
    = Raise (LogRegError msg_cannot_load).
Proof.
  assert (H1 : write_file (fun _ => None) "model.txt"
                 (Text.unlines ["Input size 3"; "0.5"]%string) "model.txt"%string
               = Some (Text.unlines ["Input size 3"; "0.5"]%string)) by reflexivity.
  assert (H2 : Text.readlines (Text.unlines ["Input size 3"; "0.5"]%string)
               = Text.unlines ["Input size 3"]%string :: [Text.unlines ["0.5"]%string])
    by reflexivity.
  assert (H3 : declares Text.int_of_decimal (Text.unlines ["Input size 3"]%string) 3)
    by (apply declares_decimal; [lia | reflexivity | reflexivity]).
  assert (Hd : (Z.of_nat 3 <= 1000000)%Z) by (cbn; lia).
  assert (H4 : Forall (is_number Text.float_of_decimal)
                 (data_lines [Text.unlines ["0.5"]%string])).
  { change (data_lines [Text.unlines ["0.5"]%string]) with ["0.5"%string].
    constructor; [exact half_is_number | constructor]. }
  assert (H5 : (length (data_lines [Text.unlines ["0.5"]%string]) < 3 + 2)%nat).
  { change (data_lines [Text.unlines ["0.5"]%string]) with ["0.5"%string]. cbn. lia. }
  repeat (split; [assumption|]).
  exact (load_too_few Text.int_of_decimal Text.float_of_decimal __init__
           "model.txt"%string _ _ _ _ 3 H1 H2 H3 Hd H4 H5).
Defined.

Lemma load_too_many_witness :
  write_file (fun _ => None) "model.txt"
             (Text.unlines ["Input size 1"; "0.5"; "0.5"; "0.5"; "0.5"]%string)
             "model.txt"%string
    = Some (Text.unlines ["Input size 1"; "0.5"; "0.5"; "0.5"; "0.5"]%string) /\
  Text.readlines (Text.unlines ["Input size 1"; "0.5"; "0.5"; "0.5"; "0.5"]%string)
    = Text.unlines ["Input size 1"]%string
        :: repeat (Text.unlines ["0.5"]%string) 4 /\
  declares Text.int_of_decimal (Text.unlines ["Input size 1"]%string) 1 /\
  Forall (is_number Text.float_of_decimal)
         (firstn (1 + 2) (data_lines (repeat (Text.unlines ["0.5"]%string) 4))) /\
  (1 + 2 < length (data_lines (repeat (Text.unlines ["0.5"]%string) 4)))%nat /\
  fst (load Text.int_of_decimal Text.float_of_decimal __init__ "model.txt"
            (write_file (fun _ => None) "model.txt"
                        (Text.unlines ["Input size 1"; "0.5"; "0.5"; "0.5"; "0.5"]%string)))
    = Raise (LogRegError msg_cannot_load).
Proof.
  assert (H1 : write_file (fun _ => None) "model.txt"
                 (Text.unlines ["Input size 1"; "0.5"; "0.5"; "0.5"; "0.5"]%string)
                 "model.txt"%string
               = Some (Text.unlines ["Input size 1"; "0.5"; "0.5"; "0.5"; "0.5"]%string))
    by reflexivity.
  assert (H2 : Text.readlines
                 (Text.unlines ["Input size 1"; "0.5"; "0.5"; "0.5"; "0.5"]%string)
               = Text.unlines ["Input size 1"]%string
                   :: repeat (Text.unlines ["0.5"]%string) 4) by reflexivity.
  assert (H3 : declares Text.int_of_decimal (Text.unlines ["Input size 1"]%string) 1)
    by (apply declares_decimal; [lia | reflexivity | reflexivity]).
  assert (E : data_lines (repeat (Text.unlines ["0.5"]%string) 4)
              = repeat "0.5"%string 4) by reflexivity.
  assert (H4 : Forall (is_number Text.float_of_decimal)
                 (firstn (1 + 2) (data_lines (repeat (Text.unlines ["0.5"]%string) 4)))).
  { rewrite E. cbn [repeat firstn Nat.add].
    repeat (constructor; [exact half_is_number|]). constructor. }
  assert (H5 : (1 + 2 < length (data_lines (repeat (Text.unlines ["0.5"]%string) 4)))%nat).
  { rewrite E. cbn. lia. }
  repeat (split; [assumption|]).
  exact (load_too_many Text.int_of_decimal Text.float_of_decimal __init__
           "model.txt"%string _ _ _ _ 1 H1 H2 H3 H4 H5).
Defined.

(** ** The objective *)




(** ** The text of the exception *)

Lemma append_cancel_l (p s t : string) : (p ++ s = p ++ t)%string -> s = t.
Proof.
  induction p as [|c p IH]; cbn [append]; intros H; [exact H|].
  injection H as H. now apply IH.
Qed.

(** X20.  The text [LogRegError.__str__] builds tells the messages apart:
    two exceptions print the same text only if they carry the same
    message, and an exception without message never prints like one with
    a message. *)
Theorem str_injective (m1 m2 : option string) :
  __str__ m1 = __str__ m2 -> m1 = m2.
Proof.
  unfold __str__. cbv zeta.
  destruct m1 as [s1|], m2 as [s2|]; intros H.
  - apply append_cancel_l in H. apply (append_cancel_l " ") in H. now subst.
  - exfalso. rewrite <- (TextFacts.append_nil_r "Logistic regression algorithm is incorrect!") in H at 2.
    apply append_cancel_l in H. discriminate.
  - exfalso. rewrite <- (TextFacts.append_nil_r "Logistic regression algorithm is incorrect!") in H at 1.
    apply append_cancel_l in H. discriminate.
  - reflexivity.
Qed.

Lemma str_injective_witness :
  __str__ (Some msg_cannot_load) = __str__ (Some msg_cannot_load) /\
  Some msg_cannot_load = Some msg_cannot_load.
Proof.
  split; [reflexivity|].
  exact (str_injective (Some msg_cannot_load) (Some msg_cannot_load) eq_refl).
Defined.

(** ** Using a fitted or loaded object *)

Lemma ge_mask_labels (ps : list R) (th : R) :
  Forall (fun l => l = 0 \/ l = 1) (ge_mask ps th).
Proof.
  unfold ge_mask. apply Forall_forall. intros l Hin.
  apply in_map_iff in Hin. destruct Hin as (v & <- & _).
  destruct (Rge_dec v th); [now right | now left].
Qed.

(** X21.  A usable object with [d] coefficients serves exactly the
    two-dimensional inputs of [d] columns: for them [transform] returns
    one value per row and [predict] a label 0 or 1 per row; for every
    other input both raise the [LogRegError] of a wrong input. *)
Theorem usable_serves (self : Model) (d : nat) (X : pyvalue) :
  usable self d ->
  (forall rows, X = NdArray2 d rows ->
     exists ps labels,
       transform self X = Ok ps /\ predict self X = Ok labels /\
       length ps = length rows /\ length labels = length rows /\
       Forall (fun l => l = 0 \/ l = 1) labels) /\
  ((forall rows, X <> NdArray2 d rows) ->
     transform self X = Raise (LogRegError msg_input_wrong) /\
     predict self X = Raise (LogRegError msg_input_wrong)).
Proof.
  intros (a & w & th & -> & Hw & _). split.
  - intros rows ->. exists (probabilities rows a w), (ge_mask (probabilities rows a w) th).
    unfold predict, transform. cbn [__a __b __th]. rewrite Hw, Nat.eqb_refl. cbn [bind].
    split; [reflexivity|]. split; [reflexivity|].
    split; [apply probabilities_length|].
    split; [unfold ge_mask; now rewrite length_map, probabilities_length|].
    apply ge_mask_labels.
  - intros Hno. unfold predict, transform. cbn [__a __b __th].
    destruct X as [|xv|ncols rows| |]; cbn [bind]; try (split; reflexivity).
    rewrite Hw. destruct (ncols =? d)%nat eqn:E; [|split; reflexivity].
    apply Nat.eqb_eq in E. subst ncols. exfalso. now apply (Hno rows).
Qed.

Lemma usable_serves_witness :
  usable (mkModel (Some 0) (Some [1]) (Some 0.5)) 1 /\
  (exists ps labels,
     transform (mkModel (Some 0) (Some [1]) (Some 0.5)) (NdArray2 1 [[2]; [-3]]) = Ok ps /\
     predict (mkModel (Some 0) (Some [1]) (Some 0.5)) (NdArray2 1 [[2]; [-3]]) = Ok labels /\
     length ps = length [[2]; [-3]] /\ length labels = length [[2]; [-3]] /\
     Forall (fun l => l = 0 \/ l = 1) labels) /\
  (transform (mkModel (Some 0) (Some [1]) (Some 0.5)) (NdArray1 [2])
     = Raise (LogRegError msg_input_wrong) /\
   predict (mkModel (Some 0) (Some [1]) (Some 0.5)) (NdArray1 [2])
     = Raise (LogRegError msg_input_wrong)).
Proof.
  assert (H : usable (mkModel (Some 0) (Some [1]) (Some 0.5)) 1).
  { exists 0, [1], 0.5. split; [reflexivity|]. split; [reflexivity | lra]. }
  split; [exact H|]. split.
  - exact (proj1 (usable_serves (mkModel (Some 0) (Some [1]) (Some 0.5)) 1
                    (NdArray2 1 [[2]; [-3]]) H) [[2]; [-3]] eq_refl).
  - apply (proj2 (usable_serves (mkModel (Some 0) (Some [1]) (Some 0.5)) 1
                    (NdArray1 [2]) H)).
    intros rows Hx. discriminate Hx.
Defined.

